(** * GENAIHACKS backend: text preprocessing and the chat endpoint

    A shallow embedding of [backend/data_preprocessing.py] ([clean],
    [chunking], [preprocess]), of [backend/api.py] ([startup_event],
    [chat_endpoint]) and of [backend/vectorization.py]
    ([vectorize_documents]), with the properties of these functions
    that the repository's specification states, and further properties
    read off the code.

    Python [str] values are modelled by [string]: sequences of the code
    points U+0000..U+00FF, one [ascii] per code point.  The character
    classes of [re] and of the [str] methods are the ones CPython uses
    on these code points.  The properties of [clean] that depend on the
    characters are stated on a second model, [Unicode.clean], over the
    texts of all code points; the two agree on U+0000..U+00FF
    ([codes_clean]). *)

From Stdlib Require Import Ascii String NArith DecimalString Lia.
From stdpp Require Import base list strings gmap.

Local Open Scope N_scope.

(** ** Characters *)

Definition ord (c : ascii) : N := N_of_ascii c.

(** [Py_UNICODE_ISSPACE]: what [\s], [str.strip()] and [str.split()]
    take for whitespace. *)
Definition isspace (c : ascii) : bool :=
  let n := ord c in
  ((9 <=? n) && (n <=? 13)) || ((28 <=? n) && (n <=? 32))
  || (n =? 133) || (n =? 160).

(** [Py_UNICODE_ISALNUM]: letters (Lu, Ll, Lo) and the characters with
    a decimal, digit or numeric value. *)
Definition isalnum (c : ascii) : bool :=
  let n := ord c in
  ((48 <=? n) && (n <=? 57)) || ((65 <=? n) && (n <=? 90))
  || ((97 <=? n) && (n <=? 122))
  || (n =? 170) || (n =? 178) || (n =? 179) || (n =? 181)
  || (n =? 185) || (n =? 186) || ((188 <=? n) && (n <=? 190))
  || ((192 <=? n) && (n <=? 214)) || ((216 <=? n) && (n <=? 246))
  || ((248 <=? n) && (n <=? 255)).

(** [\w] of [re] on a [str] pattern: alphanumeric or the underscore. *)
Definition isword (c : ascii) : bool := isalnum c || (ord c =? 95).

(** The four punctuation marks that the class of [clean] lists. *)
Definition ispunct (c : ascii) : bool :=
  let n := ord c in (n =? 46) || (n =? 44) || (n =? 63) || (n =? 33).

(** Characters with an uppercase form that [str.lower()] changes. *)
Definition isupper (c : ascii) : bool :=
  let n := ord c in
  ((65 <=? n) && (n <=? 90)) || ((192 <=? n) && (n <=? 214))
  || ((216 <=? n) && (n <=? 222)).

Definition lower_char (c : ascii) : ascii :=
  if isupper c then ascii_of_N (ord c + 32) else c.

Definition space : ascii := " "%char.
Definition newline : ascii := "010"%char.

(** ** String operations of Python used by the source *)

(** [re.sub(r'\s+', ' ', text)]: every maximal run of whitespace becomes
    one space.  [in_run] tells that the previous character was part of
    the run being replaced. *)
Fixpoint sub_ws_from (in_run : bool) (text : string) : string :=
  match text with
  | EmptyString => EmptyString
  | String c rest =>
      if isspace c
      then (if in_run then sub_ws_from true rest
            else String space (sub_ws_from true rest))
      else String c (sub_ws_from false rest)
  end.

Definition sub_ws (text : string) : string := sub_ws_from false text.

(** The class [[^\w\s\.\,\?\!]]. *)
Definition special (c : ascii) : bool :=
  negb (isword c || isspace c || ispunct c).

(** [re.sub(r'[^\w\s\.\,\?\!]', ' ', text)]: each character of the class
    is replaced by one space. *)
Fixpoint sub_special (text : string) : string :=
  match text with
  | EmptyString => EmptyString
  | String c rest =>
      String (if special c then space else c) (sub_special rest)
  end.

(** [text.lower()] *)
Fixpoint lower (text : string) : string :=
  match text with
  | EmptyString => EmptyString
  | String c rest => String (lower_char c) (lower rest)
  end.

Fixpoint lstrip (text : string) : string :=
  match text with
  | EmptyString => EmptyString
  | String c rest => if isspace c then lstrip rest else text
  end.

Fixpoint rstrip (text : string) : string :=
  match text with
  | EmptyString => EmptyString
  | String c rest =>
      match rstrip rest with
      | EmptyString => if isspace c then EmptyString else String c EmptyString
      | kept => String c kept
      end
  end.

(** [text.strip()] *)
Definition strip (text : string) : string := rstrip (lstrip text).

(** [text.split()]: the maximal runs of characters that are not
    whitespace.  [word] is the word read so far. *)
Fixpoint split_from (word : string) (text : string) : list string :=
  match text with
  | EmptyString => match word with EmptyString => [] | _ => [word] end
  | String c rest =>
      if isspace c
      then match word with
           | EmptyString => split_from EmptyString rest
           | _ => word :: split_from EmptyString rest
           end
      else split_from (word +:+ String c EmptyString) rest
  end.

Definition split (text : string) : list string := split_from EmptyString text.

(** [sep.join(words)] *)
Fixpoint join (sep : string) (words : list string) : string :=
  match words with
  | [] => EmptyString
  | [w] => w
  | w :: rest => w +:+ sep +:+ join sep rest
  end.

(** [range(start, stop, step)] for a positive step: [start],
    [start + step], ... while below [stop].  The indices are produced
    one per unit of [fuel]; [range] gives enough of it. *)
Fixpoint range_from (fuel : nat) (i stop step : nat) : list nat :=
  match fuel with
  | O => []
  | S fuel' =>
      if (i <? stop)%nat then i :: range_from fuel' (i + step)%nat stop step
      else []
  end.

Definition range (start stop step : nat) : list nat :=
  range_from (stop - start)%nat start stop step.

(** ** data_preprocessing.py *)

(** A cell of the data frame, as [pd.read_csv] gives it for a text
    column: a string, or [None] for a missing value (NaN), for which
    [pd.isna] holds. *)
Definition cell := option string.

Definition clean (text : cell) : string :=
  match text with
  | None => EmptyString
  | Some text =>
      let text := sub_ws text in
      let text := sub_special text in
      let text := lower text in
      let text := strip text in
      text
  end.

Definition chunk_size : nat := 500.
Definition overlap : nat := 50.

Definition chunking (text : string) : list string :=
  let words := split text in
  fold_left
    (fun chunks i =>
       let chunk := join " " (take chunk_size (drop i words)) in
       chunks ++ [chunk])
    (range 0 (length words) (chunk_size - overlap))
    [].

Record Row := { row_Context : cell; row_Response : cell }.

Record Metadata := { original_context : cell; meta_response : nat }.

Record Document := {
  context : string;
  response : string;
  data : string;
  metadata : Metadata
}.

(** The f-string [f"Question: {context}\nAnswer: {response}"]. *)
Definition format_data (context response : string) : string :=
  "Question: " +:+ context +:+ String newline "Answer: " +:+ response.

(** The body of the loop over the chunks of one row. *)
Definition emit_chunks (row : Row) (context response : string)
    (chunks : list string) (documents : list Document) : list Document :=
  fold_left
    (fun documents chunk =>
       let document :=
         {| context := context;
            response := response;
            data := chunk;
            metadata := {| original_context := row_Context row;
                           meta_response := length documents |} |} in
       documents ++ [document])
    chunks documents.

(** The body of the loop over the rows. *)
Definition process_row (documents : list Document) (row : Row)
    : list Document :=
  let context := clean (row_Context row) in
  let response := clean (row_Response row) in
  let data := format_data context response in
  let chunks := chunking data in
  emit_chunks row context response chunks documents.

(** [preprocess], on the rows that [pd.read_csv] has read. *)
Definition preprocess (df : list Row) : list Document :=
  fold_left process_row df [].

(** ** api.py *)

Local Close Scope N_scope.

(** Python values that the handler sees: the values of the chain's
    result dictionary, and the JSON-like values it returns.  A [dict]
    with [str] keys is a [gmap string]; the model does not keep the
    insertion order of a [dict].  [PObj] is an object given by its
    attributes (a LangChain [Document] has [page_content] and
    [metadata]). *)
#[warnings="-register-all"]
Inductive pyval :=
| PNone
| PStr (s : string)
| PInt (n : Z)
| PList (items : list pyval)
| PDict (entries : gmap string pyval)
| PObj (attrs : gmap string pyval).

(** Exceptions deriving from [Exception]: an instance of some class with
    its [str(e)] text, or FastAPI's [HTTPException]. *)
Inductive exn :=
| Exception (class_name : string) (text : string)
| HTTPException (status_code : nat) (detail : string).

(** The decimal digits of a number. *)
Definition string_of_nat (n : nat) : string :=
  NilZero.string_of_uint (Nat.to_uint n).

(** [str(e)]; Starlette's [HTTPException] prints as its status code, a
    colon and its detail. *)
Definition str_exn (e : exn) : string :=
  match e with
  | Exception _ text => text
  | HTTPException status_code detail =>
      string_of_nat status_code +:+ ": " +:+ detail
  end.

Inductive result (A : Type) :=
| Return (a : A)
| Raise (e : exn).
Arguments Return {A} a.
Arguments Raise {A} e.

(** What a request does besides computing its response. *)
Inductive event :=
| Invoke (inputs : gmap string pyval)
| LogError (message : string).

(** Computations that may raise and that record their events. *)
Definition M (A : Type) : Type := (list event * result A)%type.

Definition ret {A} (a : A) : M A := ([], Return a).
Definition raise {A} (e : exn) : M A := ([], Raise e).
Definition emit (ev : event) : M unit := ([ev], Return tt).

Definition bind {A B} (m : M A) (f : A -> M B) : M B :=
  match m with
  | (t, Return a) => let '(t', r) := f a in (t ++ t', r)
  | (t, Raise e) => (t, Raise e)
  end.

(** [try: m except Exception as e: handler e] *)
Definition try_except {A} (m : M A) (handler : exn -> M A) : M A :=
  match m with
  | (t, Return a) => (t, Return a)
  | (t, Raise e) => let '(t', r) := handler e in (t ++ t', r)
  end.

Notation "x <- m ;; k" := (bind m (fun x => k))
  (at level 100, m at next level, right associativity).
Notation "m ;;; k" := (bind m (fun _ => k))
  (at level 100, right associativity).

(** The retrieval-generation chain, an external collaborator: what its
    [invoke] does with the inputs of one request. *)
Record Chain := { chain_invoke : gmap string pyval -> result (gmap string pyval) }.

Definition invoke (chain : Chain) (inputs : gmap string pyval)
    : M (gmap string pyval) :=
  ([Invoke inputs], chain_invoke chain inputs).

Definition logger_error (message : string) : M unit := emit (LogError message).

(** [d.get(key, default)] *)
Definition dict_get (d : gmap string pyval) (key : string) (default : pyval)
    : pyval :=
  match d !! key with
  | Some v => v
  | None => default
  end.

(** [x.name if hasattr(x, name) else None]; the values other than
    objects have neither of the two attributes the handler asks for. *)
Definition attr_or_none (x : pyval) (name : string) : pyval :=
  match x with
  | PObj attrs => dict_get attrs name PNone
  | _ => PNone
  end.

Fixpoint chars (s : string) : list pyval :=
  match s with
  | EmptyString => []
  | String c rest => PStr (String c EmptyString) :: chars rest
  end.

(** The items a [for] loop gets from a value; [None], numbers and
    plain objects are not iterable. *)
Definition iterate (x : pyval) : M (list pyval) :=
  match x with
  | PList items => ret items
  | PStr s => ret (chars s)
  | PDict entries => ret (PStr <$> (map_to_list entries).*1)
  | PNone => raise (Exception "TypeError" "'NoneType' object is not iterable")
  | PInt _ => raise (Exception "TypeError" "'int' object is not iterable")
  | PObj _ => raise (Exception "TypeError" "object is not iterable")
  end.

(** [result["sources"].append(source)] *)
Definition append_source (result : gmap string pyval) (source : pyval)
    : gmap string pyval :=
  match result !! "sources" with
  | Some (PList sources) => <["sources" := PList (sources ++ [source])]> result
  | _ => result
  end.

Definition make_source (doc : pyval) : pyval :=
  PDict {[ "content" := attr_or_none doc "page_content";
           "metadata" := attr_or_none doc "metadata" ]}.

(** The pydantic model of the request body. *)
Record Question := { query : string }.

Definition chat_endpoint (retrieval_chain : Chain) (question : Question)
    : M (gmap string pyval) :=
  try_except
    (response <- invoke retrieval_chain {[ "query" := PStr (query question) ]} ;;
     let result : gmap string pyval :=
       {[ "response" := dict_get response "result" (PStr "No response generated");
          "sources" := PList [] ]} in
     match response !! "source_documents" with
     | Some source_documents =>
         docs <- iterate source_documents ;;
         ret (fold_left
                (fun result doc => append_source result (make_source doc))
                docs result)
     | None => ret result
     end)
    (fun e =>
       logger_error ("Error processing question: " +:+ str_exn e) ;;;
       raise (HTTPException 500 "Error processing your question")).

(** What FastAPI makes of the handler's outcome: the returned value as
    the body of a 200 response, an [HTTPException] as its status with
    the body [{"detail": detail}], any other exception as a plain 500. *)
Record Response := { status : nat; body : pyval }.

Definition respond (r : result (gmap string pyval)) : Response :=
  match r with
  | Return value => {| status := 200; body := PDict value |}
  | Raise (HTTPException code detail) =>
      {| status := code; body := PDict {[ "detail" := PStr detail ]} |}
  | Raise (Exception _ _) =>
      {| status := 500; body := PStr "Internal Server Error" |}
  end.

(** [POST /chat] with a body that validates as a [Question]. *)
Definition post_chat (retrieval_chain : Chain) (question : Question)
    : list event * Response :=
  let '(events, r) := chat_endpoint retrieval_chain question in
  (events, respond r).

(** ** Properties stated by the specification, as predicates *)

(** The characters of a string, in order. *)
Definition characters (s : string) : list ascii := list_ascii_of_string s.

(** The row of the specification's end-to-end scenario. *)
Definition anxious_row : Row :=
  {| row_Context := Some "I feel anxious";
     row_Response := Some "That's understandable, let's talk about it" |}.

(** The combined text that [preprocess] builds for a row. *)
Definition combined_text (row : Row) : string :=
  format_data (clean (row_Context row)) (clean (row_Response row)).

(** [ceil(a / b)] on natural numbers. *)
Definition ceil_div (a b : nat) : nat := (a + b - 1) / b.

(** The chunk count that the specification gives for [W = 500] and
    [O = 50]. *)
Definition spec_chunk_count (wordCount : nat) : nat :=
  if (500 <? wordCount)%nat then ceil_div (wordCount - 50) 450 else 1.

(** The result that the specification gives to [chunking]. *)
Definition spec_chunking (text : string) : Prop :=
  chunking text <> [] /\
  ((length (split text) < 500)%nat -> chunking text = [join " " (split text)]).

(** A text of [n] one-letter words. *)
Definition text_of_words (n : nat) : string := join " " (replicate n "w").

(** The document that [preprocess] emits for a chunk of [row] when
    [count] documents were emitted before it. *)
Definition document_of (row : Row) (count : nat) (chunk : string) : Document :=
  {| context := clean (row_Context row);
     response := clean (row_Response row);
     data := chunk;
     metadata := {| original_context := row_Context row;
                    meta_response := count |} |}.

(** [d] was made from a chunk of [row]. *)
Definition from_row (row : Row) (d : Document) : Prop :=
  context d = clean (row_Context row) /\
  response d = clean (row_Response row) /\
  original_context (metadata d) = row_Context row /\
  data d ∈ chunking (combined_text row).

(** The events of a request that are calls of the chain. *)
Definition invocations (events : list event) : list (gmap string pyval) :=
  omap (fun ev => match ev with Invoke inputs => Some inputs | _ => None end)
       events.

Definition is_client_error (code : nat) : bool :=
  (400 <=? code)%nat && (code <? 500)%nat.

(** The generic body of the 500 response. *)
Definition generic_error_body : pyval :=
  PDict {[ "detail" := PStr "Error processing your question" ]}.

(** What the specification asks of a request with an empty query. *)
Definition spec_rejects_empty_query (chain : Chain) : Prop :=
  let '(events, resp) := post_chat chain {| query := "" |} in
  is_client_error (status resp) = true /\ invocations events = [].

(** The inputs that the handler passes to the chain. *)
Definition chain_inputs (question : Question) : gmap string pyval :=
  {[ "query" := PStr (query question) ]}.

(** A chain whose [invoke] returns an empty result for every input. *)
Definition silent_chain : Chain := {| chain_invoke := fun _ => Return ∅ |}.

(** A chain whose [invoke] fails. *)
Definition failing_chain (e : exn) : Chain :=
  {| chain_invoke := fun _ => Raise e |}.

(** ** Further predicates on texts and documents *)

(** A word as [str.split()] gives it: not empty, without whitespace. *)
Definition is_word (w : string) : Prop :=
  w <> "" /\ Forall (fun c => isspace c = false) (characters w).

(** The number of documents that [preprocess] emits for a row, from the
    word counts of its two cleaned cells. *)
Definition documents_of_row (row : Row) : nat :=
  ceil_div (2 + length (split (clean (row_Context row)))
              + length (split (clean (row_Response row)))) 450.

(** [d] with its running count moved up by [n]. *)
Definition renumber (n : nat) (d : Document) : Document :=
  {| context := context d;
     response := response d;
     data := data d;
     metadata := {| original_context := original_context (metadata d);
                    meta_response := n + meta_response (metadata d) |} |}.

(** A LangChain [Document] as the handler sees it: an object with the
    attributes [page_content] and [metadata]. *)
Definition langchain_document (page_content metadata : pyval) : pyval :=
  PObj {[ "page_content" := page_content; "metadata" := metadata ]}.

(** ** vectorization.py and the startup of api.py *)

(** The records that the loggers of the two modules receive. *)
Inductive log_record :=
| Info (message : string)
| Error (message : string).

(** Computations of the startup: they log and may raise. *)
Definition Startup (A : Type) : Type := (list log_record * result A)%type.

Definition startup_ret {A} (a : A) : Startup A := ([], Return a).
Definition startup_raise {A} (e : exn) : Startup A := ([], Raise e).
Definition logger (record : log_record) : Startup unit := ([record], Return tt).

(** A call of an external collaborator, with its outcome. *)
Definition call {A} (outcome : result A) : Startup A := ([], outcome).

Definition startup_bind {A B} (m : Startup A) (f : A -> Startup B)
    : Startup B :=
  match m with
  | (logs, Return a) => let '(logs', r) := f a in (logs ++ logs', r)
  | (logs, Raise e) => (logs, Raise e)
  end.

Definition startup_try {A} (m : Startup A) (handler : exn -> Startup A)
    : Startup A :=
  match m with
  | (logs, Return a) => (logs, Return a)
  | (logs, Raise e) => let '(logs', r) := handler e in (logs ++ logs', r)
  end.

Notation "'let*' x ':=' m 'in' k" := (startup_bind m (fun x => k))
  (at level 10, x name, m at level 100, k at level 200).

(** A LangChain [Document] as [vectorize_documents] builds it. *)
Record LangchainDocument := {
  page_content : string;
  document_metadata : Metadata
}.

(** The collaborators outside the repository, with the outcome of each
    of their calls: [pd.read_csv('data/data.csv')], the constructor of
    [HuggingFaceEmbeddings], [Chroma.from_documents], and the
    construction of the chain from a vector store in
    [create_retrieval_chain]. *)
Record Environment := {
  Embeddings : Type;
  Vectorstore : Type;
  read_csv : result (list Row);
  make_embeddings : result Embeddings;
  from_documents : list LangchainDocument -> Embeddings -> result Vectorstore;
  create_retrieval_chain : Vectorstore -> result Chain
}.

(** [preprocess()], with the reading of the file. *)
Definition preprocess_call (env : Environment) : Startup (list Document) :=
  let* df := call (read_csv env) in
  startup_ret (preprocess df).

Definition vectorize_documents (env : Environment)
    (documents : list Document) : Startup (Vectorstore env) :=
  startup_try
    (let* _ := logger (Info "Initializing embeddings model...") in
     let* embeddings := call (make_embeddings env) in
     let* _ := logger (Info "Creating document objects...") in
     let docs :=
       (fun doc => {| page_content := data doc;
                      document_metadata := metadata doc |}) <$> documents in
     let* _ := logger (Info "Creating vector store...") in
     let* vectorstore := call (from_documents env docs embeddings) in
     startup_ret vectorstore)
    (fun e =>
       let* _ := logger (Error ("Error in vectorization: " +:+ str_exn e)) in
       startup_raise e).

(** [startup_event]; [retrieval_chain] is the global of that name before
    the call ([None] while it is not set), and the result has its value
    after the call. *)
Definition startup_event (env : Environment) (retrieval_chain : option Chain)
    : Startup unit * option Chain :=
  match
    (let* documents := preprocess_call env in
     let* vectorstore := vectorize_documents env documents in
     call (create_retrieval_chain env vectorstore))
  with
  | (logs, Return chain) =>
      ((logs ++ [Info "System initialized successfully"], Return tt),
       Some chain)
  | (logs, Raise e) =>
      ((logs ++ [Error ("Startup error: " +:+ str_exn e)],
        Raise (Exception "Exception" "Failed to initialize the system")),
       retrieval_chain)
  end.

(** [chat_endpoint] with the global [retrieval_chain] as it is when the
    request arrives: while the name is not set, reading it raises a
    [NameError] inside the [try]. *)
Definition chat_endpoint_with (retrieval_chain : option Chain)
    (question : Question) : M (gmap string pyval) :=
  match retrieval_chain with
  | Some chain => chat_endpoint chain question
  | None =>
      try_except
        (raise (Exception "NameError" "name 'retrieval_chain' is not defined"))
        (fun e =>
           logger_error ("Error processing question: " +:+ str_exn e) ;;;
           raise (HTTPException 500 "Error processing your question"))
  end.

Definition post_chat_with (retrieval_chain : option Chain)
    (question : Question) : list event * Response :=
  let '(events, r) := chat_endpoint_with retrieval_chain question in
  (events, respond r).

(** The LangChain documents that [vectorize_documents] makes. *)
Definition langchain_documents (documents : list Document)
    : list LangchainDocument :=
  (fun doc => {| page_content := data doc;
                 document_metadata := metadata doc |}) <$> documents.

(** The failure of one of the stages of the startup with [e], the
    stages before it having succeeded. *)
Definition stage_failure (env : Environment) (e : exn) : Prop :=
  read_csv env = Raise e \/
  exists df, read_csv env = Return df /\
    (make_embeddings env = Raise e \/
     exists embeddings, make_embeddings env = Return embeddings /\
       (from_documents env (langchain_documents (preprocess df)) embeddings
          = Raise e \/
        exists vectorstore,
          from_documents env (langchain_documents (preprocess df)) embeddings
            = Return vectorstore /\
          create_retrieval_chain env vectorstore = Raise e)).

(** The exception that leaves a failed startup. *)
Definition startup_failure : exn :=
  Exception "Exception" "Failed to initialize the system".

(** An environment given by the outcomes of reading the data and of
    making the embedding model; the vector store is the list of its
    documents. *)
Definition simple_environment (csv : result (list Row))
    (embeddings : result unit) : Environment :=
  {| Embeddings := unit;
     Vectorstore := list LangchainDocument;
     read_csv := csv;
     make_embeddings := embeddings;
     from_documents := fun docs _ => Return docs;
     create_retrieval_chain := fun _ => Return silent_chain |}.

(** A chain whose [invoke] returns [r] for every input. *)
Definition answering_chain (r : gmap string pyval) : Chain :=
  {| chain_invoke := fun _ => Return r |}.

(** ** Texts over all code points

    [clean] once more, on texts of arbitrary code points: a text is the
    list of its code points, and the character classes and the
    lowercase mappings are those of CPython with the Unicode character
    database 14.0.0.  On texts of code points up to U+00FF this is the
    [clean] above. *)

Module Unicode.

Definition in_ranges (c : N) (ranges : list (N * N)) : bool :=
  existsb (fun r => (r.1 <=? c)%N && (c <=? r.2)%N) ranges.

(** The whitespace characters ([Py_UNICODE_ISSPACE]), as ranges of code
    points. *)
Definition space_ranges : list (N * N) :=
  [
   (0x9, 0xD); (0x1C, 0x20); (0x85, 0x85); (0xA0, 0xA0); (0x1680, 0x1680);
   (0x2000, 0x200A); (0x2028, 0x2029); (0x202F, 0x202F); (0x205F, 0x205F); (0x3000, 0x3000)
  ]%N.

(** The alphanumeric characters ([Py_UNICODE_ISALNUM]). *)
Definition alnum_ranges : list (N * N) :=
  [
   (0x30, 0x39); (0x41, 0x5A); (0x61, 0x7A); (0xAA, 0xAA); (0xB2, 0xB3);
   (0xB5, 0xB5); (0xB9, 0xBA); (0xBC, 0xBE); (0xC0, 0xD6); (0xD8, 0xF6);
   (0xF8, 0x2C1); (0x2C6, 0x2D1); (0x2E0, 0x2E4); (0x2EC, 0x2EC); (0x2EE, 0x2EE);
   (0x370, 0x374); (0x376, 0x377); (0x37A, 0x37D); (0x37F, 0x37F); (0x386, 0x386);
   (0x388, 0x38A); (0x38C, 0x38C); (0x38E, 0x3A1); (0x3A3, 0x3F5); (0x3F7, 0x481);
   (0x48A, 0x52F); (0x531, 0x556); (0x559, 0x559); (0x560, 0x588); (0x5D0, 0x5EA);
   (0x5EF, 0x5F2); (0x620, 0x64A); (0x660, 0x669); (0x66E, 0x66F); (0x671, 0x6D3);
   (0x6D5, 0x6D5); (0x6E5, 0x6E6); (0x6EE, 0x6FC); (0x6FF, 0x6FF); (0x710, 0x710);
   (0x712, 0x72F); (0x74D, 0x7A5); (0x7B1, 0x7B1); (0x7C0, 0x7EA); (0x7F4, 0x7F5);
   (0x7FA, 0x7FA); (0x800, 0x815); (0x81A, 0x81A); (0x824, 0x824); (0x828, 0x828);
   (0x840, 0x858); (0x860, 0x86A); (0x870, 0x887); (0x889, 0x88E); (0x8A0, 0x8C9);
   (0x904, 0x939); (0x93D, 0x93D); (0x950, 0x950); (0x958, 0x961); (0x966, 0x96F);
   (0x971, 0x980); (0x985, 0x98C); (0x98F, 0x990); (0x993, 0x9A8); (0x9AA, 0x9B0);
   (0x9B2, 0x9B2); (0x9B6, 0x9B9); (0x9BD, 0x9BD); (0x9CE, 0x9CE); (0x9DC, 0x9DD);
   (0x9DF, 0x9E1); (0x9E6, 0x9F1); (0x9F4, 0x9F9); (0x9FC, 0x9FC); (0xA05, 0xA0A);
   (0xA0F, 0xA10); (0xA13, 0xA28); (0xA2A, 0xA30); (0xA32, 0xA33); (0xA35, 0xA36);
   (0xA38, 0xA39); (0xA59, 0xA5C); (0xA5E, 0xA5E); (0xA66, 0xA6F); (0xA72, 0xA74);
   (0xA85, 0xA8D); (0xA8F, 0xA91); (0xA93, 0xAA8); (0xAAA, 0xAB0); (0xAB2, 0xAB3);
   (0xAB5, 0xAB9); (0xABD, 0xABD); (0xAD0, 0xAD0); (0xAE0, 0xAE1); (0xAE6, 0xAEF);
   (0xAF9, 0xAF9); (0xB05, 0xB0C); (0xB0F, 0xB10); (0xB13, 0xB28); (0xB2A, 0xB30);
   (0xB32, 0xB33); (0xB35, 0xB39); (0xB3D, 0xB3D); (0xB5C, 0xB5D); (0xB5F, 0xB61);
   (0xB66, 0xB6F); (0xB71, 0xB77); (0xB83, 0xB83); (0xB85, 0xB8A); (0xB8E, 0xB90);
   (0xB92, 0xB95); (0xB99, 0xB9A); (0xB9C, 0xB9C); (0xB9E, 0xB9F); (0xBA3, 0xBA4);
   (0xBA8, 0xBAA); (0xBAE, 0xBB9); (0xBD0, 0xBD0); (0xBE6, 0xBF2); (0xC05, 0xC0C);
   (0xC0E, 0xC10); (0xC12, 0xC28); (0xC2A, 0xC39); (0xC3D, 0xC3D); (0xC58, 0xC5A);
   (0xC5D, 0xC5D); (0xC60, 0xC61); (0xC66, 0xC6F); (0xC78, 0xC7E); (0xC80, 0xC80);
   (0xC85, 0xC8C); (0xC8E, 0xC90); (0xC92, 0xCA8); (0xCAA, 0xCB3); (0xCB5, 0xCB9);
   (0xCBD, 0xCBD); (0xCDD, 0xCDE); (0xCE0, 0xCE1); (0xCE6, 0xCEF); (0xCF1, 0xCF2);
   (0xD04, 0xD0C); (0xD0E, 0xD10); (0xD12, 0xD3A); (0xD3D, 0xD3D); (0xD4E, 0xD4E);
   (0xD54, 0xD56); (0xD58, 0xD61); (0xD66, 0xD78); (0xD7A, 0xD7F); (0xD85, 0xD96);
   (0xD9A, 0xDB1); (0xDB3, 0xDBB); (0xDBD, 0xDBD); (0xDC0, 0xDC6); (0xDE6, 0xDEF);
   (0xE01, 0xE30); (0xE32, 0xE33); (0xE40, 0xE46); (0xE50, 0xE59); (0xE81, 0xE82);
   (0xE84, 0xE84); (0xE86, 0xE8A); (0xE8C, 0xEA3); (0xEA5, 0xEA5); (0xEA7, 0xEB0);
   (0xEB2, 0xEB3); (0xEBD, 0xEBD); (0xEC0, 0xEC4); (0xEC6, 0xEC6); (0xED0, 0xED9);
   (0xEDC, 0xEDF); (0xF00, 0xF00); (0xF20, 0xF33); (0xF40, 0xF47); (0xF49, 0xF6C);
   (0xF88, 0xF8C); (0x1000, 0x102A); (0x103F, 0x1049); (0x1050, 0x1055); (0x105A, 0x105D);
   (0x1061, 0x1061); (0x1065, 0x1066); (0x106E, 0x1070); (0x1075, 0x1081); (0x108E, 0x108E);
   (0x1090, 0x1099); (0x10A0, 0x10C5); (0x10C7, 0x10C7); (0x10CD, 0x10CD); (0x10D0, 0x10FA);
   (0x10FC, 0x1248); (0x124A, 0x124D); (0x1250, 0x1256); (0x1258, 0x1258); (0x125A, 0x125D);
   (0x1260, 0x1288); (0x128A, 0x128D); (0x1290, 0x12B0); (0x12B2, 0x12B5); (0x12B8, 0x12BE);
   (0x12C0, 0x12C0); (0x12C2, 0x12C5); (0x12C8, 0x12D6); (0x12D8, 0x1310); (0x1312, 0x1315);
   (0x1318, 0x135A); (0x1369, 0x137C); (0x1380, 0x138F); (0x13A0, 0x13F5); (0x13F8, 0x13FD);
   (0x1401, 0x166C); (0x166F, 0x167F); (0x1681, 0x169A); (0x16A0, 0x16EA); (0x16EE, 0x16F8);
   (0x1700, 0x1711); (0x171F, 0x1731); (0x1740, 0x1751); (0x1760, 0x176C); (0x176E, 0x1770);
   (0x1780, 0x17B3); (0x17D7, 0x17D7); (0x17DC, 0x17DC); (0x17E0, 0x17E9); (0x17F0, 0x17F9);
   (0x1810, 0x1819); (0x1820, 0x1878); (0x1880, 0x1884); (0x1887, 0x18A8); (0x18AA, 0x18AA);
   (0x18B0, 0x18F5); (0x1900, 0x191E); (0x1946, 0x196D); (0x1970, 0x1974); (0x1980, 0x19AB);
   (0x19B0, 0x19C9); (0x19D0, 0x19DA); (0x1A00, 0x1A16); (0x1A20, 0x1A54); (0x1A80, 0x1A89);
   (0x1A90, 0x1A99); (0x1AA7, 0x1AA7); (0x1B05, 0x1B33); (0x1B45, 0x1B4C); (0x1B50, 0x1B59);
   (0x1B83, 0x1BA0); (0x1BAE, 0x1BE5); (0x1C00, 0x1C23); (0x1C40, 0x1C49); (0x1C4D, 0x1C7D);
   (0x1C80, 0x1C88); (0x1C90, 0x1CBA); (0x1CBD, 0x1CBF); (0x1CE9, 0x1CEC); (0x1CEE, 0x1CF3);
   (0x1CF5, 0x1CF6); (0x1CFA, 0x1CFA); (0x1D00, 0x1DBF); (0x1E00, 0x1F15); (0x1F18, 0x1F1D);
   (0x1F20, 0x1F45); (0x1F48, 0x1F4D); (0x1F50, 0x1F57); (0x1F59, 0x1F59); (0x1F5B, 0x1F5B);
   (0x1F5D, 0x1F5D); (0x1F5F, 0x1F7D); (0x1F80, 0x1FB4); (0x1FB6, 0x1FBC); (0x1FBE, 0x1FBE);
   (0x1FC2, 0x1FC4); (0x1FC6, 0x1FCC); (0x1FD0, 0x1FD3); (0x1FD6, 0x1FDB); (0x1FE0, 0x1FEC);
   (0x1FF2, 0x1FF4); (0x1FF6, 0x1FFC); (0x2070, 0x2071); (0x2074, 0x2079); (0x207F, 0x2089);
   (0x2090, 0x209C); (0x2102, 0x2102); (0x2107, 0x2107); (0x210A, 0x2113); (0x2115, 0x2115);
   (0x2119, 0x211D); (0x2124, 0x2124); (0x2126, 0x2126); (0x2128, 0x2128); (0x212A, 0x212D);
   (0x212F, 0x2139); (0x213C, 0x213F); (0x2145, 0x2149); (0x214E, 0x214E); (0x2150, 0x2189);
   (0x2460, 0x249B); (0x24EA, 0x24FF); (0x2776, 0x2793); (0x2C00, 0x2CE4); (0x2CEB, 0x2CEE);
   (0x2CF2, 0x2CF3); (0x2CFD, 0x2CFD); (0x2D00, 0x2D25); (0x2D27, 0x2D27); (0x2D2D, 0x2D2D);
   (0x2D30, 0x2D67); (0x2D6F, 0x2D6F); (0x2D80, 0x2D96); (0x2DA0, 0x2DA6); (0x2DA8, 0x2DAE);
   (0x2DB0, 0x2DB6); (0x2DB8, 0x2DBE); (0x2DC0, 0x2DC6); (0x2DC8, 0x2DCE); (0x2DD0, 0x2DD6);
   (0x2DD8, 0x2DDE); (0x2E2F, 0x2E2F); (0x3005, 0x3007); (0x3021, 0x3029); (0x3031, 0x3035);
   (0x3038, 0x303C); (0x3041, 0x3096); (0x309D, 0x309F); (0x30A1, 0x30FA); (0x30FC, 0x30FF);
   (0x3105, 0x312F); (0x3131, 0x318E); (0x3192, 0x3195); (0x31A0, 0x31BF); (0x31F0, 0x31FF);
   (0x3220, 0x3229); (0x3248, 0x324F); (0x3251, 0x325F); (0x3280, 0x3289); (0x32B1, 0x32BF);
   (0x3400, 0x4DBF); (0x4E00, 0xA48C); (0xA4D0, 0xA4FD); (0xA500, 0xA60C); (0xA610, 0xA62B);
   (0xA640, 0xA66E); (0xA67F, 0xA69D); (0xA6A0, 0xA6EF); (0xA717, 0xA71F); (0xA722, 0xA788);
   (0xA78B, 0xA7CA); (0xA7D0, 0xA7D1); (0xA7D3, 0xA7D3); (0xA7D5, 0xA7D9); (0xA7F2, 0xA801);
   (0xA803, 0xA805); (0xA807, 0xA80A); (0xA80C, 0xA822); (0xA830, 0xA835); (0xA840, 0xA873);
   (0xA882, 0xA8B3); (0xA8D0, 0xA8D9); (0xA8F2, 0xA8F7); (0xA8FB, 0xA8FB); (0xA8FD, 0xA8FE);
   (0xA900, 0xA925); (0xA930, 0xA946); (0xA960, 0xA97C); (0xA984, 0xA9B2); (0xA9CF, 0xA9D9);
   (0xA9E0, 0xA9E4); (0xA9E6, 0xA9FE); (0xAA00, 0xAA28); (0xAA40, 0xAA42); (0xAA44, 0xAA4B);
   (0xAA50, 0xAA59); (0xAA60, 0xAA76); (0xAA7A, 0xAA7A); (0xAA7E, 0xAAAF); (0xAAB1, 0xAAB1);
   (0xAAB5, 0xAAB6); (0xAAB9, 0xAABD); (0xAAC0, 0xAAC0); (0xAAC2, 0xAAC2); (0xAADB, 0xAADD);
   (0xAAE0, 0xAAEA); (0xAAF2, 0xAAF4); (0xAB01, 0xAB06); (0xAB09, 0xAB0E); (0xAB11, 0xAB16);
   (0xAB20, 0xAB26); (0xAB28, 0xAB2E); (0xAB30, 0xAB5A); (0xAB5C, 0xAB69); (0xAB70, 0xABE2);
   (0xABF0, 0xABF9); (0xAC00, 0xD7A3); (0xD7B0, 0xD7C6); (0xD7CB, 0xD7FB); (0xF900, 0xFA6D);
   (0xFA70, 0xFAD9); (0xFB00, 0xFB06); (0xFB13, 0xFB17); (0xFB1D, 0xFB1D); (0xFB1F, 0xFB28);
   (0xFB2A, 0xFB36); (0xFB38, 0xFB3C); (0xFB3E, 0xFB3E); (0xFB40, 0xFB41); (0xFB43, 0xFB44);
   (0xFB46, 0xFBB1); (0xFBD3, 0xFD3D); (0xFD50, 0xFD8F); (0xFD92, 0xFDC7); (0xFDF0, 0xFDFB);
   (0xFE70, 0xFE74); (0xFE76, 0xFEFC); (0xFF10, 0xFF19); (0xFF21, 0xFF3A); (0xFF41, 0xFF5A);
   (0xFF66, 0xFFBE); (0xFFC2, 0xFFC7); (0xFFCA, 0xFFCF); (0xFFD2, 0xFFD7); (0xFFDA, 0xFFDC);
   (0x10000, 0x1000B); (0x1000D, 0x10026); (0x10028, 0x1003A); (0x1003C, 0x1003D); (0x1003F, 0x1004D);
   (0x10050, 0x1005D); (0x10080, 0x100FA); (0x10107, 0x10133); (0x10140, 0x10178); (0x1018A, 0x1018B);
   (0x10280, 0x1029C); (0x102A0, 0x102D0); (0x102E1, 0x102FB); (0x10300, 0x10323); (0x1032D, 0x1034A);
   (0x10350, 0x10375); (0x10380, 0x1039D); (0x103A0, 0x103C3); (0x103C8, 0x103CF); (0x103D1, 0x103D5);
   (0x10400, 0x1049D); (0x104A0, 0x104A9); (0x104B0, 0x104D3); (0x104D8, 0x104FB); (0x10500, 0x10527);
   (0x10530, 0x10563); (0x10570, 0x1057A); (0x1057C, 0x1058A); (0x1058C, 0x10592); (0x10594, 0x10595);
   (0x10597, 0x105A1); (0x105A3, 0x105B1); (0x105B3, 0x105B9); (0x105BB, 0x105BC); (0x10600, 0x10736);
   (0x10740, 0x10755); (0x10760, 0x10767); (0x10780, 0x10785); (0x10787, 0x107B0); (0x107B2, 0x107BA);
   (0x10800, 0x10805); (0x10808, 0x10808); (0x1080A, 0x10835); (0x10837, 0x10838); (0x1083C, 0x1083C);
   (0x1083F, 0x10855); (0x10858, 0x10876); (0x10879, 0x1089E); (0x108A7, 0x108AF); (0x108E0, 0x108F2);
   (0x108F4, 0x108F5); (0x108FB, 0x1091B); (0x10920, 0x10939); (0x10980, 0x109B7); (0x109BC, 0x109CF);
   (0x109D2, 0x10A00); (0x10A10, 0x10A13); (0x10A15, 0x10A17); (0x10A19, 0x10A35); (0x10A40, 0x10A48);
   (0x10A60, 0x10A7E); (0x10A80, 0x10A9F); (0x10AC0, 0x10AC7); (0x10AC9, 0x10AE4); (0x10AEB, 0x10AEF);
   (0x10B00, 0x10B35); (0x10B40, 0x10B55); (0x10B58, 0x10B72); (0x10B78, 0x10B91); (0x10BA9, 0x10BAF);
   (0x10C00, 0x10C48); (0x10C80, 0x10CB2); (0x10CC0, 0x10CF2); (0x10CFA, 0x10D23); (0x10D30, 0x10D39);
   (0x10E60, 0x10E7E); (0x10E80, 0x10EA9); (0x10EB0, 0x10EB1); (0x10F00, 0x10F27); (0x10F30, 0x10F45);
   (0x10F51, 0x10F54); (0x10F70, 0x10F81); (0x10FB0, 0x10FCB); (0x10FE0, 0x10FF6); (0x11003, 0x11037);
   (0x11052, 0x1106F); (0x11071, 0x11072); (0x11075, 0x11075); (0x11083, 0x110AF); (0x110D0, 0x110E8);
   (0x110F0, 0x110F9); (0x11103, 0x11126); (0x11136, 0x1113F); (0x11144, 0x11144); (0x11147, 0x11147);
   (0x11150, 0x11172); (0x11176, 0x11176); (0x11183, 0x111B2); (0x111C1, 0x111C4); (0x111D0, 0x111DA);
   (0x111DC, 0x111DC); (0x111E1, 0x111F4); (0x11200, 0x11211); (0x11213, 0x1122B); (0x11280, 0x11286);
   (0x11288, 0x11288); (0x1128A, 0x1128D); (0x1128F, 0x1129D); (0x1129F, 0x112A8); (0x112B0, 0x112DE);
   (0x112F0, 0x112F9); (0x11305, 0x1130C); (0x1130F, 0x11310); (0x11313, 0x11328); (0x1132A, 0x11330);
   (0x11332, 0x11333); (0x11335, 0x11339); (0x1133D, 0x1133D); (0x11350, 0x11350); (0x1135D, 0x11361);
   (0x11400, 0x11434); (0x11447, 0x1144A); (0x11450, 0x11459); (0x1145F, 0x11461); (0x11480, 0x114AF);
   (0x114C4, 0x114C5); (0x114C7, 0x114C7); (0x114D0, 0x114D9); (0x11580, 0x115AE); (0x115D8, 0x115DB);
   (0x11600, 0x1162F); (0x11644, 0x11644); (0x11650, 0x11659); (0x11680, 0x116AA); (0x116B8, 0x116B8);
   (0x116C0, 0x116C9); (0x11700, 0x1171A); (0x11730, 0x1173B); (0x11740, 0x11746); (0x11800, 0x1182B);
   (0x118A0, 0x118F2); (0x118FF, 0x11906); (0x11909, 0x11909); (0x1190C, 0x11913); (0x11915, 0x11916);
   (0x11918, 0x1192F); (0x1193F, 0x1193F); (0x11941, 0x11941); (0x11950, 0x11959); (0x119A0, 0x119A7);
   (0x119AA, 0x119D0); (0x119E1, 0x119E1); (0x119E3, 0x119E3); (0x11A00, 0x11A00); (0x11A0B, 0x11A32);
   (0x11A3A, 0x11A3A); (0x11A50, 0x11A50); (0x11A5C, 0x11A89); (0x11A9D, 0x11A9D); (0x11AB0, 0x11AF8);
   (0x11C00, 0x11C08); (0x11C0A, 0x11C2E); (0x11C40, 0x11C40); (0x11C50, 0x11C6C); (0x11C72, 0x11C8F);
   (0x11D00, 0x11D06); (0x11D08, 0x11D09); (0x11D0B, 0x11D30); (0x11D46, 0x11D46); (0x11D50, 0x11D59);
   (0x11D60, 0x11D65); (0x11D67, 0x11D68); (0x11D6A, 0x11D89); (0x11D98, 0x11D98); (0x11DA0, 0x11DA9);
   (0x11EE0, 0x11EF2); (0x11FB0, 0x11FB0); (0x11FC0, 0x11FD4); (0x12000, 0x12399); (0x12400, 0x1246E);
   (0x12480, 0x12543); (0x12F90, 0x12FF0); (0x13000, 0x1342E); (0x14400, 0x14646); (0x16800, 0x16A38);
   (0x16A40, 0x16A5E); (0x16A60, 0x16A69); (0x16A70, 0x16ABE); (0x16AC0, 0x16AC9); (0x16AD0, 0x16AED);
   (0x16B00, 0x16B2F); (0x16B40, 0x16B43); (0x16B50, 0x16B59); (0x16B5B, 0x16B61); (0x16B63, 0x16B77);
   (0x16B7D, 0x16B8F); (0x16E40, 0x16E96); (0x16F00, 0x16F4A); (0x16F50, 0x16F50); (0x16F93, 0x16F9F);
   (0x16FE0, 0x16FE1); (0x16FE3, 0x16FE3); (0x17000, 0x187F7); (0x18800, 0x18CD5); (0x18D00, 0x18D08);
   (0x1AFF0, 0x1AFF3); (0x1AFF5, 0x1AFFB); (0x1AFFD, 0x1AFFE); (0x1B000, 0x1B122); (0x1B150, 0x1B152);
   (0x1B164, 0x1B167); (0x1B170, 0x1B2FB); (0x1BC00, 0x1BC6A); (0x1BC70, 0x1BC7C); (0x1BC80, 0x1BC88);
   (0x1BC90, 0x1BC99); (0x1D2E0, 0x1D2F3); (0x1D360, 0x1D378); (0x1D400, 0x1D454); (0x1D456, 0x1D49C);
   (0x1D49E, 0x1D49F); (0x1D4A2, 0x1D4A2); (0x1D4A5, 0x1D4A6); (0x1D4A9, 0x1D4AC); (0x1D4AE, 0x1D4B9);
   (0x1D4BB, 0x1D4BB); (0x1D4BD, 0x1D4C3); (0x1D4C5, 0x1D505); (0x1D507, 0x1D50A); (0x1D50D, 0x1D514);
   (0x1D516, 0x1D51C); (0x1D51E, 0x1D539); (0x1D53B, 0x1D53E); (0x1D540, 0x1D544); (0x1D546, 0x1D546);
   (0x1D54A, 0x1D550); (0x1D552, 0x1D6A5); (0x1D6A8, 0x1D6C0); (0x1D6C2, 0x1D6DA); (0x1D6DC, 0x1D6FA);
   (0x1D6FC, 0x1D714); (0x1D716, 0x1D734); (0x1D736, 0x1D74E); (0x1D750, 0x1D76E); (0x1D770, 0x1D788);
   (0x1D78A, 0x1D7A8); (0x1D7AA, 0x1D7C2); (0x1D7C4, 0x1D7CB); (0x1D7CE, 0x1D7FF); (0x1DF00, 0x1DF1E);
   (0x1E100, 0x1E12C); (0x1E137, 0x1E13D); (0x1E140, 0x1E149); (0x1E14E, 0x1E14E); (0x1E290, 0x1E2AD);
   (0x1E2C0, 0x1E2EB); (0x1E2F0, 0x1E2F9); (0x1E7E0, 0x1E7E6); (0x1E7E8, 0x1E7EB); (0x1E7ED, 0x1E7EE);
   (0x1E7F0, 0x1E7FE); (0x1E800, 0x1E8C4); (0x1E8C7, 0x1E8CF); (0x1E900, 0x1E943); (0x1E94B, 0x1E94B);
   (0x1E950, 0x1E959); (0x1EC71, 0x1ECAB); (0x1ECAD, 0x1ECAF); (0x1ECB1, 0x1ECB4); (0x1ED01, 0x1ED2D);
   (0x1ED2F, 0x1ED3D); (0x1EE00, 0x1EE03); (0x1EE05, 0x1EE1F); (0x1EE21, 0x1EE22); (0x1EE24, 0x1EE24);
   (0x1EE27, 0x1EE27); (0x1EE29, 0x1EE32); (0x1EE34, 0x1EE37); (0x1EE39, 0x1EE39); (0x1EE3B, 0x1EE3B);
   (0x1EE42, 0x1EE42); (0x1EE47, 0x1EE47); (0x1EE49, 0x1EE49); (0x1EE4B, 0x1EE4B); (0x1EE4D, 0x1EE4F);
   (0x1EE51, 0x1EE52); (0x1EE54, 0x1EE54); (0x1EE57, 0x1EE57); (0x1EE59, 0x1EE59); (0x1EE5B, 0x1EE5B);
   (0x1EE5D, 0x1EE5D); (0x1EE5F, 0x1EE5F); (0x1EE61, 0x1EE62); (0x1EE64, 0x1EE64); (0x1EE67, 0x1EE6A);
   (0x1EE6C, 0x1EE72); (0x1EE74, 0x1EE77); (0x1EE79, 0x1EE7C); (0x1EE7E, 0x1EE7E); (0x1EE80, 0x1EE89);
   (0x1EE8B, 0x1EE9B); (0x1EEA1, 0x1EEA3); (0x1EEA5, 0x1EEA9); (0x1EEAB, 0x1EEBB); (0x1F100, 0x1F10C);
   (0x1FBF0, 0x1FBF9); (0x20000, 0x2A6DF); (0x2A700, 0x2B738); (0x2B740, 0x2B81D); (0x2B820, 0x2CEA1);
   (0x2CEB0, 0x2EBE0); (0x2F800, 0x2FA1D); (0x30000, 0x3134A)
  ]%N.

(** The simple lowercase mappings: the code points from [first] to
    [last] in steps of [stride] map to [image], [image + stride], ... *)
Definition lower_rules : list (N * N * N * N) :=
  [
   (0x41, 0x5A, 1, 0x61); (0xC0, 0xD6, 1, 0xE0); (0xD8, 0xDE, 1, 0xF8);
   (0x100, 0x12E, 2, 0x101); (0x132, 0x136, 2, 0x133); (0x139, 0x147, 2, 0x13A);
   (0x14A, 0x176, 2, 0x14B); (0x178, 0x178, 1, 0xFF); (0x179, 0x17D, 2, 0x17A);
   (0x181, 0x181, 1, 0x253); (0x182, 0x184, 2, 0x183); (0x186, 0x186, 1, 0x254);
   (0x187, 0x187, 1, 0x188); (0x189, 0x18A, 1, 0x256); (0x18B, 0x18B, 1, 0x18C);
   (0x18E, 0x18E, 1, 0x1DD); (0x18F, 0x18F, 1, 0x259); (0x190, 0x190, 1, 0x25B);
   (0x191, 0x191, 1, 0x192); (0x193, 0x193, 1, 0x260); (0x194, 0x194, 1, 0x263);
   (0x196, 0x196, 1, 0x269); (0x197, 0x197, 1, 0x268); (0x198, 0x198, 1, 0x199);
   (0x19C, 0x19C, 1, 0x26F); (0x19D, 0x19D, 1, 0x272); (0x19F, 0x19F, 1, 0x275);
   (0x1A0, 0x1A4, 2, 0x1A1); (0x1A6, 0x1A6, 1, 0x280); (0x1A7, 0x1A7, 1, 0x1A8);
   (0x1A9, 0x1A9, 1, 0x283); (0x1AC, 0x1AC, 1, 0x1AD); (0x1AE, 0x1AE, 1, 0x288);
   (0x1AF, 0x1AF, 1, 0x1B0); (0x1B1, 0x1B2, 1, 0x28A); (0x1B3, 0x1B5, 2, 0x1B4);
   (0x1B7, 0x1B7, 1, 0x292); (0x1B8, 0x1B8, 1, 0x1B9); (0x1BC, 0x1BC, 1, 0x1BD);
   (0x1C4, 0x1C4, 1, 0x1C6); (0x1C5, 0x1C5, 1, 0x1C6); (0x1C7, 0x1C7, 1, 0x1C9);
   (0x1C8, 0x1C8, 1, 0x1C9); (0x1CA, 0x1CA, 1, 0x1CC); (0x1CB, 0x1DB, 2, 0x1CC);
   (0x1DE, 0x1EE, 2, 0x1DF); (0x1F1, 0x1F1, 1, 0x1F3); (0x1F2, 0x1F4, 2, 0x1F3);
   (0x1F6, 0x1F6, 1, 0x195); (0x1F7, 0x1F7, 1, 0x1BF); (0x1F8, 0x21E, 2, 0x1F9);
   (0x220, 0x220, 1, 0x19E); (0x222, 0x232, 2, 0x223); (0x23A, 0x23A, 1, 0x2C65);
   (0x23B, 0x23B, 1, 0x23C); (0x23D, 0x23D, 1, 0x19A); (0x23E, 0x23E, 1, 0x2C66);
   (0x241, 0x241, 1, 0x242); (0x243, 0x243, 1, 0x180); (0x244, 0x244, 1, 0x289);
   (0x245, 0x245, 1, 0x28C); (0x246, 0x24E, 2, 0x247); (0x370, 0x372, 2, 0x371);
   (0x376, 0x376, 1, 0x377); (0x37F, 0x37F, 1, 0x3F3); (0x386, 0x386, 1, 0x3AC);
   (0x388, 0x38A, 1, 0x3AD); (0x38C, 0x38C, 1, 0x3CC); (0x38E, 0x38F, 1, 0x3CD);
   (0x391, 0x3A1, 1, 0x3B1); (0x3A3, 0x3AB, 1, 0x3C3); (0x3CF, 0x3CF, 1, 0x3D7);
   (0x3D8, 0x3EE, 2, 0x3D9); (0x3F4, 0x3F4, 1, 0x3B8); (0x3F7, 0x3F7, 1, 0x3F8);
   (0x3F9, 0x3F9, 1, 0x3F2); (0x3FA, 0x3FA, 1, 0x3FB); (0x3FD, 0x3FF, 1, 0x37B);
   (0x400, 0x40F, 1, 0x450); (0x410, 0x42F, 1, 0x430); (0x460, 0x480, 2, 0x461);
   (0x48A, 0x4BE, 2, 0x48B); (0x4C0, 0x4C0, 1, 0x4CF); (0x4C1, 0x4CD, 2, 0x4C2);
   (0x4D0, 0x52E, 2, 0x4D1); (0x531, 0x556, 1, 0x561); (0x10A0, 0x10C5, 1, 0x2D00);
   (0x10C7, 0x10C7, 1, 0x2D27); (0x10CD, 0x10CD, 1, 0x2D2D); (0x13A0, 0x13EF, 1, 0xAB70);
   (0x13F0, 0x13F5, 1, 0x13F8); (0x1C90, 0x1CBA, 1, 0x10D0); (0x1CBD, 0x1CBF, 1, 0x10FD);
   (0x1E00, 0x1E94, 2, 0x1E01); (0x1E9E, 0x1E9E, 1, 0xDF); (0x1EA0, 0x1EFE, 2, 0x1EA1);
   (0x1F08, 0x1F0F, 1, 0x1F00); (0x1F18, 0x1F1D, 1, 0x1F10); (0x1F28, 0x1F2F, 1, 0x1F20);
   (0x1F38, 0x1F3F, 1, 0x1F30); (0x1F48, 0x1F4D, 1, 0x1F40); (0x1F59, 0x1F5F, 2, 0x1F51);
   (0x1F68, 0x1F6F, 1, 0x1F60); (0x1F88, 0x1F8F, 1, 0x1F80); (0x1F98, 0x1F9F, 1, 0x1F90);
   (0x1FA8, 0x1FAF, 1, 0x1FA0); (0x1FB8, 0x1FB9, 1, 0x1FB0); (0x1FBA, 0x1FBB, 1, 0x1F70);
   (0x1FBC, 0x1FBC, 1, 0x1FB3); (0x1FC8, 0x1FCB, 1, 0x1F72); (0x1FCC, 0x1FCC, 1, 0x1FC3);
   (0x1FD8, 0x1FD9, 1, 0x1FD0); (0x1FDA, 0x1FDB, 1, 0x1F76); (0x1FE8, 0x1FE9, 1, 0x1FE0);
   (0x1FEA, 0x1FEB, 1, 0x1F7A); (0x1FEC, 0x1FEC, 1, 0x1FE5); (0x1FF8, 0x1FF9, 1, 0x1F78);
   (0x1FFA, 0x1FFB, 1, 0x1F7C); (0x1FFC, 0x1FFC, 1, 0x1FF3); (0x2126, 0x2126, 1, 0x3C9);
   (0x212A, 0x212A, 1, 0x6B); (0x212B, 0x212B, 1, 0xE5); (0x2132, 0x2132, 1, 0x214E);
   (0x2160, 0x216F, 1, 0x2170); (0x2183, 0x2183, 1, 0x2184); (0x24B6, 0x24CF, 1, 0x24D0);
   (0x2C00, 0x2C2F, 1, 0x2C30); (0x2C60, 0x2C60, 1, 0x2C61); (0x2C62, 0x2C62, 1, 0x26B);
   (0x2C63, 0x2C63, 1, 0x1D7D); (0x2C64, 0x2C64, 1, 0x27D); (0x2C67, 0x2C6B, 2, 0x2C68);
   (0x2C6D, 0x2C6D, 1, 0x251); (0x2C6E, 0x2C6E, 1, 0x271); (0x2C6F, 0x2C6F, 1, 0x250);
   (0x2C70, 0x2C70, 1, 0x252); (0x2C72, 0x2C72, 1, 0x2C73); (0x2C75, 0x2C75, 1, 0x2C76);
   (0x2C7E, 0x2C7F, 1, 0x23F); (0x2C80, 0x2CE2, 2, 0x2C81); (0x2CEB, 0x2CED, 2, 0x2CEC);
   (0x2CF2, 0x2CF2, 1, 0x2CF3); (0xA640, 0xA66C, 2, 0xA641); (0xA680, 0xA69A, 2, 0xA681);
   (0xA722, 0xA72E, 2, 0xA723); (0xA732, 0xA76E, 2, 0xA733); (0xA779, 0xA77B, 2, 0xA77A);
   (0xA77D, 0xA77D, 1, 0x1D79); (0xA77E, 0xA786, 2, 0xA77F); (0xA78B, 0xA78B, 1, 0xA78C);
   (0xA78D, 0xA78D, 1, 0x265); (0xA790, 0xA792, 2, 0xA791); (0xA796, 0xA7A8, 2, 0xA797);
   (0xA7AA, 0xA7AA, 1, 0x266); (0xA7AB, 0xA7AB, 1, 0x25C); (0xA7AC, 0xA7AC, 1, 0x261);
   (0xA7AD, 0xA7AD, 1, 0x26C); (0xA7AE, 0xA7AE, 1, 0x26A); (0xA7B0, 0xA7B0, 1, 0x29E);
   (0xA7B1, 0xA7B1, 1, 0x287); (0xA7B2, 0xA7B2, 1, 0x29D); (0xA7B3, 0xA7B3, 1, 0xAB53);
   (0xA7B4, 0xA7C2, 2, 0xA7B5); (0xA7C4, 0xA7C4, 1, 0xA794); (0xA7C5, 0xA7C5, 1, 0x282);
   (0xA7C6, 0xA7C6, 1, 0x1D8E); (0xA7C7, 0xA7C9, 2, 0xA7C8); (0xA7D0, 0xA7D0, 1, 0xA7D1);
   (0xA7D6, 0xA7D8, 2, 0xA7D7); (0xA7F5, 0xA7F5, 1, 0xA7F6); (0xFF21, 0xFF3A, 1, 0xFF41);
   (0x10400, 0x10427, 1, 0x10428); (0x104B0, 0x104D3, 1, 0x104D8); (0x10570, 0x1057A, 1, 0x10597);
   (0x1057C, 0x1058A, 1, 0x105A3); (0x1058C, 0x10592, 1, 0x105B3); (0x10594, 0x10595, 1, 0x105BB);
   (0x10C80, 0x10CB2, 1, 0x10CC0); (0x118A0, 0x118BF, 1, 0x118C0); (0x16E40, 0x16E5F, 1, 0x16E60);
   (0x1E900, 0x1E921, 1, 0x1E922)
  ]%N.

(** The characters with the property Cased. *)
Definition cased_ranges : list (N * N) :=
  [
   (0x41, 0x5A); (0x61, 0x7A); (0xAA, 0xAA); (0xB5, 0xB5); (0xBA, 0xBA);
   (0xC0, 0xD6); (0xD8, 0xF6); (0xF8, 0x1BA); (0x1BC, 0x1BF); (0x1C4, 0x293);
   (0x295, 0x2B8); (0x2C0, 0x2C1); (0x2E0, 0x2E4); (0x345, 0x345); (0x370, 0x373);
   (0x376, 0x377); (0x37A, 0x37D); (0x37F, 0x37F); (0x386, 0x386); (0x388, 0x38A);
   (0x38C, 0x38C); (0x38E, 0x3A1); (0x3A3, 0x3F5); (0x3F7, 0x481); (0x48A, 0x52F);
   (0x531, 0x556); (0x560, 0x588); (0x10A0, 0x10C5); (0x10C7, 0x10C7); (0x10CD, 0x10CD);
   (0x10D0, 0x10FA); (0x10FD, 0x10FF); (0x13A0, 0x13F5); (0x13F8, 0x13FD); (0x1C80, 0x1C88);
   (0x1C90, 0x1CBA); (0x1CBD, 0x1CBF); (0x1D00, 0x1DBF); (0x1E00, 0x1F15); (0x1F18, 0x1F1D);
   (0x1F20, 0x1F45); (0x1F48, 0x1F4D); (0x1F50, 0x1F57); (0x1F59, 0x1F59); (0x1F5B, 0x1F5B);
   (0x1F5D, 0x1F5D); (0x1F5F, 0x1F7D); (0x1F80, 0x1FB4); (0x1FB6, 0x1FBC); (0x1FBE, 0x1FBE);
   (0x1FC2, 0x1FC4); (0x1FC6, 0x1FCC); (0x1FD0, 0x1FD3); (0x1FD6, 0x1FDB); (0x1FE0, 0x1FEC);
   (0x1FF2, 0x1FF4); (0x1FF6, 0x1FFC); (0x2071, 0x2071); (0x207F, 0x207F); (0x2090, 0x209C);
   (0x2102, 0x2102); (0x2107, 0x2107); (0x210A, 0x2113); (0x2115, 0x2115); (0x2119, 0x211D);
   (0x2124, 0x2124); (0x2126, 0x2126); (0x2128, 0x2128); (0x212A, 0x212D); (0x212F, 0x2134);
   (0x2139, 0x2139); (0x213C, 0x213F); (0x2145, 0x2149); (0x214E, 0x214E); (0x2160, 0x217F);
   (0x2183, 0x2184); (0x24B6, 0x24E9); (0x2C00, 0x2CE4); (0x2CEB, 0x2CEE); (0x2CF2, 0x2CF3);
   (0x2D00, 0x2D25); (0x2D27, 0x2D27); (0x2D2D, 0x2D2D); (0xA640, 0xA66D); (0xA680, 0xA69D);
   (0xA722, 0xA787); (0xA78B, 0xA78E); (0xA790, 0xA7CA); (0xA7D0, 0xA7D1); (0xA7D3, 0xA7D3);
   (0xA7D5, 0xA7D9); (0xA7F5, 0xA7F6); (0xA7F8, 0xA7FA); (0xAB30, 0xAB5A); (0xAB5C, 0xAB68);
   (0xAB70, 0xABBF); (0xFB00, 0xFB06); (0xFB13, 0xFB17); (0xFF21, 0xFF3A); (0xFF41, 0xFF5A);
   (0x10400, 0x1044F); (0x104B0, 0x104D3); (0x104D8, 0x104FB); (0x10570, 0x1057A); (0x1057C, 0x1058A);
   (0x1058C, 0x10592); (0x10594, 0x10595); (0x10597, 0x105A1); (0x105A3, 0x105B1); (0x105B3, 0x105B9);
   (0x105BB, 0x105BC); (0x10780, 0x10780); (0x10783, 0x10785); (0x10787, 0x107B0); (0x107B2, 0x107BA);
   (0x10C80, 0x10CB2); (0x10CC0, 0x10CF2); (0x118A0, 0x118DF); (0x16E40, 0x16E7F); (0x1D400, 0x1D454);
   (0x1D456, 0x1D49C); (0x1D49E, 0x1D49F); (0x1D4A2, 0x1D4A2); (0x1D4A5, 0x1D4A6); (0x1D4A9, 0x1D4AC);
   (0x1D4AE, 0x1D4B9); (0x1D4BB, 0x1D4BB); (0x1D4BD, 0x1D4C3); (0x1D4C5, 0x1D505); (0x1D507, 0x1D50A);
   (0x1D50D, 0x1D514); (0x1D516, 0x1D51C); (0x1D51E, 0x1D539); (0x1D53B, 0x1D53E); (0x1D540, 0x1D544);
   (0x1D546, 0x1D546); (0x1D54A, 0x1D550); (0x1D552, 0x1D6A5); (0x1D6A8, 0x1D6C0); (0x1D6C2, 0x1D6DA);
   (0x1D6DC, 0x1D6FA); (0x1D6FC, 0x1D714); (0x1D716, 0x1D734); (0x1D736, 0x1D74E); (0x1D750, 0x1D76E);
   (0x1D770, 0x1D788); (0x1D78A, 0x1D7A8); (0x1D7AA, 0x1D7C2); (0x1D7C4, 0x1D7CB); (0x1DF00, 0x1DF09);
   (0x1DF0B, 0x1DF1E); (0x1E900, 0x1E943); (0x1F130, 0x1F149); (0x1F150, 0x1F169); (0x1F170, 0x1F189)
  ]%N.

(** The characters with the property Case_Ignorable. *)
Definition case_ignorable_ranges : list (N * N) :=
  [
   (0x27, 0x27); (0x2E, 0x2E); (0x3A, 0x3A); (0x5E, 0x5E); (0x60, 0x60);
   (0xA8, 0xA8); (0xAD, 0xAD); (0xAF, 0xAF); (0xB4, 0xB4); (0xB7, 0xB8);
   (0x2B0, 0x36F); (0x374, 0x375); (0x37A, 0x37A); (0x384, 0x385); (0x387, 0x387);
   (0x483, 0x489); (0x559, 0x559); (0x55F, 0x55F); (0x591, 0x5BD); (0x5BF, 0x5BF);
   (0x5C1, 0x5C2); (0x5C4, 0x5C5); (0x5C7, 0x5C7); (0x5F4, 0x5F4); (0x600, 0x605);
   (0x610, 0x61A); (0x61C, 0x61C); (0x640, 0x640); (0x64B, 0x65F); (0x670, 0x670);
   (0x6D6, 0x6DD); (0x6DF, 0x6E8); (0x6EA, 0x6ED); (0x70F, 0x70F); (0x711, 0x711);
   (0x730, 0x74A); (0x7A6, 0x7B0); (0x7EB, 0x7F5); (0x7FA, 0x7FA); (0x7FD, 0x7FD);
   (0x816, 0x82D); (0x859, 0x85B); (0x888, 0x888); (0x890, 0x891); (0x898, 0x89F);
   (0x8C9, 0x902); (0x93A, 0x93A); (0x93C, 0x93C); (0x941, 0x948); (0x94D, 0x94D);
   (0x951, 0x957); (0x962, 0x963); (0x971, 0x971); (0x981, 0x981); (0x9BC, 0x9BC);
   (0x9C1, 0x9C4); (0x9CD, 0x9CD); (0x9E2, 0x9E3); (0x9FE, 0x9FE); (0xA01, 0xA02);
   (0xA3C, 0xA3C); (0xA41, 0xA42); (0xA47, 0xA48); (0xA4B, 0xA4D); (0xA51, 0xA51);
   (0xA70, 0xA71); (0xA75, 0xA75); (0xA81, 0xA82); (0xABC, 0xABC); (0xAC1, 0xAC5);
   (0xAC7, 0xAC8); (0xACD, 0xACD); (0xAE2, 0xAE3); (0xAFA, 0xAFF); (0xB01, 0xB01);
   (0xB3C, 0xB3C); (0xB3F, 0xB3F); (0xB41, 0xB44); (0xB4D, 0xB4D); (0xB55, 0xB56);
   (0xB62, 0xB63); (0xB82, 0xB82); (0xBC0, 0xBC0); (0xBCD, 0xBCD); (0xC00, 0xC00);
   (0xC04, 0xC04); (0xC3C, 0xC3C); (0xC3E, 0xC40); (0xC46, 0xC48); (0xC4A, 0xC4D);
   (0xC55, 0xC56); (0xC62, 0xC63); (0xC81, 0xC81); (0xCBC, 0xCBC); (0xCBF, 0xCBF);
   (0xCC6, 0xCC6); (0xCCC, 0xCCD); (0xCE2, 0xCE3); (0xD00, 0xD01); (0xD3B, 0xD3C);
   (0xD41, 0xD44); (0xD4D, 0xD4D); (0xD62, 0xD63); (0xD81, 0xD81); (0xDCA, 0xDCA);
   (0xDD2, 0xDD4); (0xDD6, 0xDD6); (0xE31, 0xE31); (0xE34, 0xE3A); (0xE46, 0xE4E);
   (0xEB1, 0xEB1); (0xEB4, 0xEBC); (0xEC6, 0xEC6); (0xEC8, 0xECD); (0xF18, 0xF19);
   (0xF35, 0xF35); (0xF37, 0xF37); (0xF39, 0xF39); (0xF71, 0xF7E); (0xF80, 0xF84);
   (0xF86, 0xF87); (0xF8D, 0xF97); (0xF99, 0xFBC); (0xFC6, 0xFC6); (0x102D, 0x1030);
   (0x1032, 0x1037); (0x1039, 0x103A); (0x103D, 0x103E); (0x1058, 0x1059); (0x105E, 0x1060);
   (0x1071, 0x1074); (0x1082, 0x1082); (0x1085, 0x1086); (0x108D, 0x108D); (0x109D, 0x109D);
   (0x10FC, 0x10FC); (0x135D, 0x135F); (0x1712, 0x1714); (0x1732, 0x1733); (0x1752, 0x1753);
   (0x1772, 0x1773); (0x17B4, 0x17B5); (0x17B7, 0x17BD); (0x17C6, 0x17C6); (0x17C9, 0x17D3);
   (0x17D7, 0x17D7); (0x17DD, 0x17DD); (0x180B, 0x180F); (0x1843, 0x1843); (0x1885, 0x1886);
   (0x18A9, 0x18A9); (0x1920, 0x1922); (0x1927, 0x1928); (0x1932, 0x1932); (0x1939, 0x193B);
   (0x1A17, 0x1A18); (0x1A1B, 0x1A1B); (0x1A56, 0x1A56); (0x1A58, 0x1A5E); (0x1A60, 0x1A60);
   (0x1A62, 0x1A62); (0x1A65, 0x1A6C); (0x1A73, 0x1A7C); (0x1A7F, 0x1A7F); (0x1AA7, 0x1AA7);
   (0x1AB0, 0x1ACE); (0x1B00, 0x1B03); (0x1B34, 0x1B34); (0x1B36, 0x1B3A); (0x1B3C, 0x1B3C);
   (0x1B42, 0x1B42); (0x1B6B, 0x1B73); (0x1B80, 0x1B81); (0x1BA2, 0x1BA5); (0x1BA8, 0x1BA9);
   (0x1BAB, 0x1BAD); (0x1BE6, 0x1BE6); (0x1BE8, 0x1BE9); (0x1BED, 0x1BED); (0x1BEF, 0x1BF1);
   (0x1C2C, 0x1C33); (0x1C36, 0x1C37); (0x1C78, 0x1C7D); (0x1CD0, 0x1CD2); (0x1CD4, 0x1CE0);
   (0x1CE2, 0x1CE8); (0x1CED, 0x1CED); (0x1CF4, 0x1CF4); (0x1CF8, 0x1CF9); (0x1D2C, 0x1D6A);
   (0x1D78, 0x1D78); (0x1D9B, 0x1DFF); (0x1FBD, 0x1FBD); (0x1FBF, 0x1FC1); (0x1FCD, 0x1FCF);
   (0x1FDD, 0x1FDF); (0x1FED, 0x1FEF); (0x1FFD, 0x1FFE); (0x200B, 0x200F); (0x2018, 0x2019);
   (0x2024, 0x2024); (0x2027, 0x2027); (0x202A, 0x202E); (0x2060, 0x2064); (0x2066, 0x206F);
   (0x2071, 0x2071); (0x207F, 0x207F); (0x2090, 0x209C); (0x20D0, 0x20F0); (0x2C7C, 0x2C7D);
   (0x2CEF, 0x2CF1); (0x2D6F, 0x2D6F); (0x2D7F, 0x2D7F); (0x2DE0, 0x2DFF); (0x2E2F, 0x2E2F);
   (0x3005, 0x3005); (0x302A, 0x302D); (0x3031, 0x3035); (0x303B, 0x303B); (0x3099, 0x309E);
   (0x30FC, 0x30FE); (0xA015, 0xA015); (0xA4F8, 0xA4FD); (0xA60C, 0xA60C); (0xA66F, 0xA672);
   (0xA674, 0xA67D); (0xA67F, 0xA67F); (0xA69C, 0xA69F); (0xA6F0, 0xA6F1); (0xA700, 0xA721);
   (0xA770, 0xA770); (0xA788, 0xA78A); (0xA7F2, 0xA7F4); (0xA7F8, 0xA7F9); (0xA802, 0xA802);
   (0xA806, 0xA806); (0xA80B, 0xA80B); (0xA825, 0xA826); (0xA82C, 0xA82C); (0xA8C4, 0xA8C5);
   (0xA8E0, 0xA8F1); (0xA8FF, 0xA8FF); (0xA926, 0xA92D); (0xA947, 0xA951); (0xA980, 0xA982);
   (0xA9B3, 0xA9B3); (0xA9B6, 0xA9B9); (0xA9BC, 0xA9BD); (0xA9CF, 0xA9CF); (0xA9E5, 0xA9E6);
   (0xAA29, 0xAA2E); (0xAA31, 0xAA32); (0xAA35, 0xAA36); (0xAA43, 0xAA43); (0xAA4C, 0xAA4C);
   (0xAA70, 0xAA70); (0xAA7C, 0xAA7C); (0xAAB0, 0xAAB0); (0xAAB2, 0xAAB4); (0xAAB7, 0xAAB8);
   (0xAABE, 0xAABF); (0xAAC1, 0xAAC1); (0xAADD, 0xAADD); (0xAAEC, 0xAAED); (0xAAF3, 0xAAF4);
   (0xAAF6, 0xAAF6); (0xAB5B, 0xAB5F); (0xAB69, 0xAB6B); (0xABE5, 0xABE5); (0xABE8, 0xABE8);
   (0xABED, 0xABED); (0xFB1E, 0xFB1E); (0xFBB2, 0xFBC2); (0xFE00, 0xFE0F); (0xFE13, 0xFE13);
   (0xFE20, 0xFE2F); (0xFE52, 0xFE52); (0xFE55, 0xFE55); (0xFEFF, 0xFEFF); (0xFF07, 0xFF07);
   (0xFF0E, 0xFF0E); (0xFF1A, 0xFF1A); (0xFF3E, 0xFF3E); (0xFF40, 0xFF40); (0xFF70, 0xFF70);
   (0xFF9E, 0xFF9F); (0xFFE3, 0xFFE3); (0xFFF9, 0xFFFB); (0x101FD, 0x101FD); (0x102E0, 0x102E0);
   (0x10376, 0x1037A); (0x10780, 0x10785); (0x10787, 0x107B0); (0x107B2, 0x107BA); (0x10A01, 0x10A03);
   (0x10A05, 0x10A06); (0x10A0C, 0x10A0F); (0x10A38, 0x10A3A); (0x10A3F, 0x10A3F); (0x10AE5, 0x10AE6);
   (0x10D24, 0x10D27); (0x10EAB, 0x10EAC); (0x10F46, 0x10F50); (0x10F82, 0x10F85); (0x11001, 0x11001);
   (0x11038, 0x11046); (0x11070, 0x11070); (0x11073, 0x11074); (0x1107F, 0x11081); (0x110B3, 0x110B6);
   (0x110B9, 0x110BA); (0x110BD, 0x110BD); (0x110C2, 0x110C2); (0x110CD, 0x110CD); (0x11100, 0x11102);
   (0x11127, 0x1112B); (0x1112D, 0x11134); (0x11173, 0x11173); (0x11180, 0x11181); (0x111B6, 0x111BE);
   (0x111C9, 0x111CC); (0x111CF, 0x111CF); (0x1122F, 0x11231); (0x11234, 0x11234); (0x11236, 0x11237);
   (0x1123E, 0x1123E); (0x112DF, 0x112DF); (0x112E3, 0x112EA); (0x11300, 0x11301); (0x1133B, 0x1133C);
   (0x11340, 0x11340); (0x11366, 0x1136C); (0x11370, 0x11374); (0x11438, 0x1143F); (0x11442, 0x11444);
   (0x11446, 0x11446); (0x1145E, 0x1145E); (0x114B3, 0x114B8); (0x114BA, 0x114BA); (0x114BF, 0x114C0);
   (0x114C2, 0x114C3); (0x115B2, 0x115B5); (0x115BC, 0x115BD); (0x115BF, 0x115C0); (0x115DC, 0x115DD);
   (0x11633, 0x1163A); (0x1163D, 0x1163D); (0x1163F, 0x11640); (0x116AB, 0x116AB); (0x116AD, 0x116AD);
   (0x116B0, 0x116B5); (0x116B7, 0x116B7); (0x1171D, 0x1171F); (0x11722, 0x11725); (0x11727, 0x1172B);
   (0x1182F, 0x11837); (0x11839, 0x1183A); (0x1193B, 0x1193C); (0x1193E, 0x1193E); (0x11943, 0x11943);
   (0x119D4, 0x119D7); (0x119DA, 0x119DB); (0x119E0, 0x119E0); (0x11A01, 0x11A0A); (0x11A33, 0x11A38);
   (0x11A3B, 0x11A3E); (0x11A47, 0x11A47); (0x11A51, 0x11A56); (0x11A59, 0x11A5B); (0x11A8A, 0x11A96);
   (0x11A98, 0x11A99); (0x11C30, 0x11C36); (0x11C38, 0x11C3D); (0x11C3F, 0x11C3F); (0x11C92, 0x11CA7);
   (0x11CAA, 0x11CB0); (0x11CB2, 0x11CB3); (0x11CB5, 0x11CB6); (0x11D31, 0x11D36); (0x11D3A, 0x11D3A);
   (0x11D3C, 0x11D3D); (0x11D3F, 0x11D45); (0x11D47, 0x11D47); (0x11D90, 0x11D91); (0x11D95, 0x11D95);
   (0x11D97, 0x11D97); (0x11EF3, 0x11EF4); (0x13430, 0x13438); (0x16AF0, 0x16AF4); (0x16B30, 0x16B36);
   (0x16B40, 0x16B43); (0x16F4F, 0x16F4F); (0x16F8F, 0x16F9F); (0x16FE0, 0x16FE1); (0x16FE3, 0x16FE4);
   (0x1AFF0, 0x1AFF3); (0x1AFF5, 0x1AFFB); (0x1AFFD, 0x1AFFE); (0x1BC9D, 0x1BC9E); (0x1BCA0, 0x1BCA3);
   (0x1CF00, 0x1CF2D); (0x1CF30, 0x1CF46); (0x1D167, 0x1D169); (0x1D173, 0x1D182); (0x1D185, 0x1D18B);
   (0x1D1AA, 0x1D1AD); (0x1D242, 0x1D244); (0x1DA00, 0x1DA36); (0x1DA3B, 0x1DA6C); (0x1DA75, 0x1DA75);
   (0x1DA84, 0x1DA84); (0x1DA9B, 0x1DA9F); (0x1DAA1, 0x1DAAF); (0x1E000, 0x1E006); (0x1E008, 0x1E018);
   (0x1E01B, 0x1E021); (0x1E023, 0x1E024); (0x1E026, 0x1E02A); (0x1E130, 0x1E13D); (0x1E2AE, 0x1E2AE);
   (0x1E2EC, 0x1E2EF); (0x1E8D0, 0x1E8D6); (0x1E944, 0x1E94B); (0x1F3FB, 0x1F3FF); (0xE0001, 0xE0001);
   (0xE0020, 0xE007F); (0xE0100, 0xE01EF)
  ]%N.

(** [Py_UNICODE_ISSPACE]: the whitespace of [\s] and of [str.strip()]. *)
Definition isspace (c : N) : bool := in_ranges c space_ranges.

(** [Py_UNICODE_ISALNUM] *)
Definition isalnum (c : N) : bool := in_ranges c alnum_ranges.

(** [\w]: alphanumeric or the underscore. *)
Definition isword (c : N) : bool := isalnum c || (c =? 0x5F)%N.

(** The four punctuation marks [.], [,], [?] and [!]. *)
Definition ispunct (c : N) : bool :=
  (c =? 0x2E)%N || (c =? 0x2C)%N || (c =? 0x3F)%N || (c =? 0x21)%N.

(** The class [[^\w\s\.\,\?\!]]. *)
Definition special (c : N) : bool :=
  negb (isword c || isspace c || ispunct c).

Definition space : N := 0x20%N.

Definition rule_applies (c : N) (rule : N * N * N * N) : bool :=
  let '(first, last, stride, _) := rule in
  (first <=? c)%N && (c <=? last)%N && ((c - first) mod stride =? 0)%N.

(** [_PyUnicode_ToLowerFull]: the lowercase form of one character.
    U+0130 is the one character with a lowercase form of two. *)
Definition lower_char (c : N) : list N :=
  if (c =? 0x130)%N then [0x69; 0x307]%N
  else match List.find (rule_applies c) lower_rules with
       | Some (first, _, _, image) => [(image + (c - first))%N]
       | None => [c]
       end.

Definition cased (c : N) : bool := in_ranges c cased_ranges.
Definition case_ignorable (c : N) : bool := in_ranges c case_ignorable_ranges.

Fixpoint skip_ignorable (text : list N) : list N :=
  match text with
  | [] => []
  | c :: rest => if case_ignorable c then skip_ignorable rest else text
  end.

(** [handle_capital_sigma]: a capital sigma is in final position when
    the nearest character before it that is not case-ignorable is cased
    and the nearest such character after it, if any, is not.  [before]
    has the nearest character first. *)
Definition final_sigma (before after : list N) : bool :=
  match skip_ignorable before with
  | [] => false
  | c :: _ =>
      cased c &&
      match skip_ignorable after with
      | [] => true
      | d :: _ => negb (cased d)
      end
  end.

(** The lowercase form of [c] between [before] and [after]. *)
Definition lower_at (before : list N) (c : N) (after : list N) : list N :=
  if (c =? 0x3A3)%N
  then (if final_sigma before after then [0x3C2%N] else [0x3C3%N])
  else lower_char c.

Fixpoint lower_from (before text : list N) : list N :=
  match text with
  | [] => []
  | c :: rest => lower_at before c rest ++ lower_from (c :: before) rest
  end.

(** [text.lower()] *)
Definition lower (text : list N) : list N := lower_from [] text.

(** [re.sub(r'\s+', ' ', text)] *)
Fixpoint sub_ws_from (in_run : bool) (text : list N) : list N :=
  match text with
  | [] => []
  | c :: rest =>
      if isspace c
      then (if in_run then sub_ws_from true rest
            else space :: sub_ws_from true rest)
      else c :: sub_ws_from false rest
  end.

Definition sub_ws (text : list N) : list N := sub_ws_from false text.

(** [re.sub(r'[^\w\s\.\,\?\!]', ' ', text)] *)
Definition sub_special (text : list N) : list N :=
  (fun c => if special c then space else c) <$> text.

Fixpoint lstrip (text : list N) : list N :=
  match text with
  | [] => []
  | c :: rest => if isspace c then lstrip rest else text
  end.

Fixpoint rstrip (text : list N) : list N :=
  match text with
  | [] => []
  | c :: rest =>
      match rstrip rest with
      | [] => if isspace c then [] else [c]
      | kept => c :: kept
      end
  end.

(** [text.strip()] *)
Definition strip (text : list N) : list N := rstrip (lstrip text).

Definition clean (text : option (list N)) : list N :=
  match text with
  | None => []
  | Some text =>
      let text := sub_ws text in
      let text := sub_special text in
      let text := lower text in
      let text := strip text in
      text
  end.

(** The code points of a text of the 8-bit model. *)
Definition codes (s : string) : list N := N_of_ascii <$> characters s.

(** *** Properties stated by the specification, as predicates *)

Definition starts_with_space (s : list N) : bool :=
  match s with
  | [] => false
  | c :: _ => isspace c
  end.

Fixpoint ends_with_space (s : list N) : bool :=
  match s with
  | [] => false
  | [c] => isspace c
  | _ :: rest => ends_with_space rest
  end.

(** Two adjacent whitespace characters somewhere in [s]. *)
Fixpoint has_space_run (s : list N) : bool :=
  match s with
  | c1 :: ((c2 :: _) as rest) =>
      (isspace c1 && isspace c2) || has_space_run rest
  | _ => false
  end.

(** The characters that the specification allows in the output of
    [clean]. *)
Definition allowed_by_spec (c : N) : Prop :=
  isalnum c = true \/ isspace c = true \/ c ∈ [0x2E; 0x2C; 0x3F; 0x21]%N.

(** The characters that are found in the output of [clean]: those of
    the kept class, and the combining dot above that lowercasing makes
    from U+0130. *)
Definition kept_by_clean (c : N) : Prop :=
  isalnum c = true \/ c = 0x5F%N \/ isspace c = true
  \/ c ∈ [0x2E; 0x2C; 0x3F; 0x21]%N \/ c = 0x307%N.

(** The shape that the specification gives to the output of [clean]. *)
Definition spec_clean_output (out : list N) : Prop :=
  lower out = out /\
  starts_with_space out = false /\
  ends_with_space out = false /\
  has_space_run out = false.

(** The texts in the form that [clean] leaves as they are. *)
Definition normalized (t : list N) : Prop :=
  lower t = t /\
  Forall (fun c => special c = false) t /\
  Forall (fun c => isspace c = true -> c = space) t /\
  starts_with_space t = false /\
  ends_with_space t = false /\
  has_space_run t = false.

(** The code points that [lower_char] changes. *)
Definition rule_points (rule : N * N * N * N) : list N :=
  let '(first, last, stride, _) := rule in
  (fun k => (first + N.of_nat k * stride)%N)
    <$> seq 0 (S (N.to_nat ((last - first) / stride))).

Definition mapped_points : list N :=
  0x130%N :: flat_map rule_points lower_rules.

(** [lower_char] leaves [d] as it is. *)
Definition lower_fixed (d : N) : bool :=
  match lower_char d with
  | [d'] => (d' =? d)%N
  | _ => false
  end.

(** What the theorems need of a character [c] that has a lowercase
    form: it is not whitespace, and the characters of its lowercase
    form are not whitespace, have no further lowercase form, are not
    the capital sigma, and are alphanumeric when [c] is, but for the
    U+0307 of U+0130. *)
Definition image_ok (c d : N) : bool :=
  negb (isspace d) && lower_fixed d && negb (d =? 0x3A3)%N
  && (negb (isalnum c) || isalnum d
      || ((c =? 0x130)%N && (d =? 0x307)%N)).

Definition mapping_ok (c : N) : bool :=
  negb (isspace c) && forallb (image_ok c) (lower_char c).

(** The same, as a proposition. *)
Definition image_facts (c d : N) : Prop :=
  isspace d = false /\
  lower_char d = [d] /\
  d <> 0x3A3%N /\
  (isalnum c = true ->
   isalnum d = true \/ (c = 0x130%N /\ d = 0x307%N)).

End Unicode.

(** ** Characters: facts checked on all 256 code points *)

Ltac by_cases_on_char c :=
  destruct c as [[] [] [] [] [] [] [] []]; vm_compute; intuition congruence.


(** ** The steps of [clean] *)

Section CleanSteps.

Variable P : ascii -> Prop.


End CleanSteps.

(** ** [clean] *)

Lemma clean_missing : clean None = "".
Proof. reflexivity. Qed.

Example clean_hi_there : clean (Some "Hi   there!!") = "hi there!!".
Proof. reflexivity. Qed.

(** ** Characters over all code points *)

Lemma in_rule_points c rule :
  Unicode.rule_applies c rule = true -> c ∈ Unicode.rule_points rule.
Proof.
  destruct rule as [[[first last] stride] image].
  unfold Unicode.rule_applies, Unicode.rule_points.
  intros [[Hlo Hhi]%andb_prop Hmod%N.eqb_eq]%andb_prop.
  apply N.leb_le in Hlo, Hhi.
  apply list_elem_of_fmap. exists (N.to_nat ((c - first) / stride)). split.
  - rewrite N2Nat.id.
    pose proof (N.Div0.div_mod (c - first) stride) as Hdm.
    rewrite Hmod in Hdm. revert Hdm.
    generalize ((c - first) / stride)%N. intros q Hdm. nia.
  - apply elem_of_seq.
    assert ((c - first) / stride <= (last - first) / stride)%N as Hle
      by (apply N.Div0.div_le_mono; lia).
    revert Hle. generalize ((c - first) / stride)%N ((last - first) / stride)%N.
    intros q q' Hle. lia.
Qed.

Lemma lower_char_cases c :
  Unicode.lower_char c = [c] \/ c ∈ Unicode.mapped_points.
Proof.
  unfold Unicode.lower_char, Unicode.mapped_points.
  destruct (N.eqb_spec c 0x130) as [->|_]; [right; left|].
  destruct (List.find (Unicode.rule_applies c) Unicode.lower_rules)
    as [rule|] eqn:E; [|by left].
  right. apply List.find_some in E as [Hin Happ].
  right. apply list_elem_of_In, in_flat_map. exists rule.
  split; [done|]. by apply list_elem_of_In, in_rule_points.
Qed.

Lemma mapped_points_ok :
  forallb Unicode.mapping_ok Unicode.mapped_points = true.
Proof. vm_compute. reflexivity. Qed.

Lemma mapping_ok_of_mapped c :
  c ∈ Unicode.mapped_points -> Unicode.mapping_ok c = true.
Proof.
  intros H. pose proof mapped_points_ok as Hall.
  rewrite forallb_forall in Hall. by apply Hall, list_elem_of_In.
Qed.

Lemma image_ok_facts c d : Unicode.image_ok c d = true -> Unicode.image_facts c d.
Proof.
  unfold Unicode.image_ok, Unicode.image_facts.
  intros [[[Hsp Hfix]%andb_prop Hsigma]%andb_prop Halnum]%andb_prop.
  apply negb_true_iff in Hsp. apply negb_true_iff, N.eqb_neq in Hsigma.
  split; [done|]. split; [|split; [done|]].
  - unfold Unicode.lower_fixed in Hfix.
    destruct (Unicode.lower_char d) as [|d' [|? ?]]; try discriminate Hfix.
    apply N.eqb_eq in Hfix. by subst.
  - intros Hc. rewrite Hc in Halnum. simpl in Halnum.
    apply orb_prop in Halnum as [?|[?%N.eqb_eq ?%N.eqb_eq]%andb_prop]; auto.
Qed.

Lemma lower_char_space c :
  Unicode.isspace c = true -> Unicode.lower_char c = [c].
Proof.
  intros Hsp. destruct (lower_char_cases c) as [|Hin]; [done|].
  apply mapping_ok_of_mapped in Hin. unfold Unicode.mapping_ok in Hin.
  by rewrite Hsp in Hin.
Qed.

Lemma lower_char_sigma : Unicode.lower_char 0x3A3 = [0x3C3%N].
Proof. vm_compute. reflexivity. Qed.

Lemma lower_char_images c :
  Unicode.isspace c = false ->
  Forall (Unicode.image_facts c) (Unicode.lower_char c).
Proof.
  intros Hsp. destruct (lower_char_cases c) as [E|Hin].
  - rewrite E. constructor; [|done].
    split; [done|]. split; [done|]. split; [|auto].
    intros ->. rewrite lower_char_sigma in E. discriminate E.
  - apply mapping_ok_of_mapped in Hin. unfold Unicode.mapping_ok in Hin.
    apply andb_prop in Hin as [_ Hall].
    rewrite forallb_forall in Hall. apply Forall_forall.
    intros d Hd. by apply image_ok_facts, Hall, list_elem_of_In.
Qed.

Lemma lower_char_nonempty c : Unicode.lower_char c <> [].
Proof.
  unfold Unicode.lower_char. destruct (c =? 0x130)%N; [done|].
  by destruct (List.find _ _) as [[[[? ?] ?] ?]|].
Qed.

(** The same for the lowercase form in a context. *)
Lemma lower_at_space before c after :
  Unicode.isspace c = true -> Unicode.lower_at before c after = [c].
Proof.
  intros Hsp. unfold Unicode.lower_at.
  destruct (N.eqb_spec c 0x3A3) as [->|_]; [discriminate Hsp|].
  by apply lower_char_space.
Qed.

Lemma lower_at_images before c after :
  Unicode.isspace c = false ->
  Unicode.lower_at before c after <> [] /\
  Forall (Unicode.image_facts c) (Unicode.lower_at before c after).
Proof.
  intros Hsp. unfold Unicode.lower_at.
  destruct (N.eqb_spec c 0x3A3) as [->|_].
  - destruct (Unicode.final_sigma before after);
      (split; [done|]); constructor; try done;
      (split; [reflexivity|]); (split; [reflexivity|]);
      (split; [done|]); intros _; by left.
  - split; [apply lower_char_nonempty | by apply lower_char_images].
Qed.

Lemma lower_at_fixed before c after :
  Forall (fun d => Unicode.lower_char d = [d] /\ d <> 0x3A3%N)
         (Unicode.lower_at before c after).
Proof.
  destruct (Unicode.isspace c) eqn:Hsp.
  - rewrite lower_at_space by done. constructor; [|done].
    split; [by apply lower_char_space|]. intros ->. discriminate Hsp.
  - destruct (lower_at_images before c after Hsp) as [_ H].
    eapply Forall_impl; [exact H|]. by intros d (_ & ? & ? & _).
Qed.

(** ** The steps of [clean] over all code points *)

Lemma Forall_lower_from (P Q : N -> Prop) before text :
  (forall b c a, Q c -> Forall P (Unicode.lower_at b c a)) ->
  Forall Q text -> Forall P (Unicode.lower_from before text).
Proof.
  intros HPQ. revert before.
  induction text as [|c text IH]; intros before H; simpl; [done|].
  apply Forall_cons in H as [Hc H].
  apply Forall_app. split; [by apply HPQ | by apply IH].
Qed.

Lemma unicode_Forall_lstrip (P : N -> Prop) s :
  Forall P s -> Forall P (Unicode.lstrip s).
Proof.
  induction s as [|c s IH]; simpl; intros H; [done|].
  destruct (Unicode.isspace c); [|done].
  apply IH. by apply Forall_cons in H as [_ H].
Qed.

Lemma unicode_Forall_rstrip (P : N -> Prop) s :
  Forall P s -> Forall P (Unicode.rstrip s).
Proof.
  induction s as [|c s IH]; simpl; intros H; [done|].
  apply Forall_cons in H as [Hc Hs]. specialize (IH Hs).
  destruct (Unicode.rstrip s) as [|c' kept].
  - destruct (Unicode.isspace c); [done | by constructor].
  - by constructor.
Qed.

Lemma unicode_Forall_strip (P : N -> Prop) s :
  Forall P s -> Forall P (Unicode.strip s).
Proof. intros H. by apply unicode_Forall_rstrip, unicode_Forall_lstrip. Qed.

Lemma unicode_Forall_sub_ws_from (P : N -> Prop) b s :
  P Unicode.space ->
  Forall P s -> Forall P (Unicode.sub_ws_from b s).
Proof.
  intros Hsp. revert b.
  induction s as [|c s IH]; simpl; intros b H; [done|].
  apply Forall_cons in H as [Hc Hs].
  destruct (Unicode.isspace c), b; simpl; auto.
Qed.

Lemma unicode_sub_special_not_special s :
  Forall (fun c => Unicode.special c = false) (Unicode.sub_special s).
Proof.
  unfold Unicode.sub_special. apply Forall_fmap, Forall_true.
  intros c. simpl. by destruct (Unicode.special c) eqn:E.
Qed.

Lemma unicode_sub_special_id s :
  Forall (fun c => Unicode.special c = false) s -> Unicode.sub_special s = s.
Proof.
  unfold Unicode.sub_special.
  induction s as [|c s IH]; intros H; [done|].
  apply Forall_cons in H as [Hc Hs]. rewrite fmap_cons, Hc. f_equal.
  by apply IH.
Qed.

(** A kept character stays kept when lowered, but for U+0130. *)
Lemma kept_by_clean_lower_at before c after :
  Unicode.special c = false ->
  Forall Unicode.kept_by_clean (Unicode.lower_at before c after).
Proof.
  intros Hkept. destruct (Unicode.isspace c) eqn:Hsp.
  - rewrite lower_at_space by done. constructor; [|done].
    right; right; by left.
  - destruct (lower_at_images before c after Hsp) as [_ Himg].
    unfold Unicode.special, Unicode.isword in Hkept.
    rewrite Hsp, orb_false_r in Hkept. apply negb_false_iff in Hkept.
    apply orb_prop in Hkept as [[Halnum|Hus]%orb_prop|Hpunct].
    + eapply Forall_impl; [exact Himg|].
      intros d (_ & _ & _ & Hd). destruct (Hd Halnum) as [?|[_ ?]].
      * by left.
      * by do 4 right.
    + apply N.eqb_eq in Hus. subst c. constructor; [|done].
      right; by left.
    + unfold Unicode.ispunct in Hpunct.
      repeat (apply orb_prop in Hpunct as [Hpunct|Hpunct]);
        apply N.eqb_eq in Hpunct; subst c; (constructor; [|done]);
        do 3 right; left; set_solver.
Qed.

(** ** The ends of a stripped text, and the runs of whitespace *)

Lemma unicode_lstrip_starts s :
  Unicode.starts_with_space (Unicode.lstrip s) = false.
Proof.
  induction s as [|c s IH]; simpl; [done|].
  destruct (Unicode.isspace c) eqn:E; [done | simpl; done].
Qed.

Lemma unicode_rstrip_starts s :
  Unicode.starts_with_space s = false ->
  Unicode.starts_with_space (Unicode.rstrip s) = false.
Proof.
  destruct s as [|c s]; simpl; [done|]. intros E.
  destruct (Unicode.rstrip s); [rewrite E|]; done.
Qed.

Lemma unicode_rstrip_ends s :
  Unicode.ends_with_space (Unicode.rstrip s) = false.
Proof.
  induction s as [|c s IH]; simpl; [done|].
  destruct (Unicode.rstrip s) as [|c' kept].
  - destruct (Unicode.isspace c) eqn:E; simpl; done.
  - done.
Qed.

Lemma unicode_has_space_run_cons c s :
  Unicode.has_space_run (c :: s)
  = (Unicode.isspace c && Unicode.starts_with_space s)
    || Unicode.has_space_run s.
Proof. destruct s; simpl; [by rewrite andb_false_r | done]. Qed.

Lemma unicode_has_space_run_tail c s :
  Unicode.has_space_run (c :: s) = false -> Unicode.has_space_run s = false.
Proof. rewrite unicode_has_space_run_cons. by intros [_ ?]%orb_false_elim. Qed.

Lemma unicode_sub_ws_from_only_space b s :
  Forall (fun c => Unicode.isspace c = true -> c = Unicode.space)
         (Unicode.sub_ws_from b s).
Proof.
  revert b. induction s as [|c s IH]; simpl; intros b; [done|].
  destruct (Unicode.isspace c) eqn:E.
  - destruct b; simpl; auto.
  - constructor; [congruence | auto].
Qed.

Lemma unicode_sub_special_only_space s :
  Forall (fun c => Unicode.isspace c = true -> c = Unicode.space) s ->
  Forall (fun c => Unicode.isspace c = true -> c = Unicode.space)
         (Unicode.sub_special s).
Proof.
  unfold Unicode.sub_special. intros H. apply Forall_fmap.
  eapply Forall_impl; [exact H|]. intros c Hc. simpl.
  by destruct (Unicode.special c).
Qed.

Lemma unicode_lower_only_space before s :
  Forall (fun c => Unicode.isspace c = true -> c = Unicode.space) s ->
  Forall (fun c => Unicode.isspace c = true -> c = Unicode.space)
         (Unicode.lower_from before s).
Proof.
  apply Forall_lower_from. intros b c a Hc.
  destruct (Unicode.isspace c) eqn:Hsp.
  - rewrite lower_at_space by done. constructor; [auto | done].
  - destruct (lower_at_images b c a Hsp) as [_ Himg].
    eapply Forall_impl; [exact Himg|].
    intros d (Hd & _) Hd'. congruence.
Qed.

Lemma unicode_sub_ws_from_no_run b s :
  Unicode.has_space_run (Unicode.sub_ws_from b s) = false /\
  (b = true -> Unicode.starts_with_space (Unicode.sub_ws_from b s) = false).
Proof.
  revert b. induction s as [|c s IH]; intros b; [done|].
  simpl. destruct (Unicode.isspace c) eqn:E.
  - destruct (IH true) as [Hrun Hstart]. specialize (Hstart eq_refl).
    destruct b; [done|]. split; [|done].
    by rewrite unicode_has_space_run_cons, Hrun, Hstart, andb_false_r.
  - destruct (IH false) as [Hrun _]. split; [|simpl; by rewrite E].
    by rewrite unicode_has_space_run_cons, Hrun, E.
Qed.

Lemma unicode_lstrip_space_run s :
  Unicode.has_space_run s = false ->
  Unicode.has_space_run (Unicode.lstrip s) = false.
Proof.
  induction s as [|c s IH]; [done|]. intros H. simpl.
  destruct (Unicode.isspace c); [|done].
  apply IH. by apply unicode_has_space_run_tail in H.
Qed.

Lemma unicode_rstrip_space_run s :
  Unicode.has_space_run s = false ->
  Unicode.has_space_run (Unicode.rstrip s) = false.
Proof.
  induction s as [|c s IH]; [done|]. intros H. simpl.
  pose proof (unicode_has_space_run_tail _ _ H) as Ht. specialize (IH Ht).
  rewrite unicode_has_space_run_cons in H.
  apply orb_false_elim in H as [H1 _].
  destruct (Unicode.rstrip s) as [|c' kept] eqn:Er.
  - by destruct (Unicode.isspace c).
  - rewrite unicode_has_space_run_cons, IH, orb_false_r.
    destruct (Unicode.isspace c); [|done]. simpl in *.
    destruct s as [|c2 s]; [done|]. simpl in H1.
    assert (c' = c2) as ->; [|done].
    simpl in Er. destruct (Unicode.rstrip s);
      [destruct (Unicode.isspace c2)|]; congruence.
Qed.

(** Lowering keeps the whitespace where it is. *)
Lemma unicode_lower_starts before s :
  Unicode.starts_with_space (Unicode.lower_from before s)
  = Unicode.starts_with_space s.
Proof.
  destruct s as [|c s]; [done|]. simpl.
  destruct (Unicode.isspace c) eqn:Hsp.
  - rewrite lower_at_space by done. simpl. done.
  - destruct (lower_at_images before c s Hsp) as [Hne Himg].
    destruct (Unicode.lower_at before c s) as [|d ds]; [done|].
    apply Forall_cons in Himg as [(Hd & _) _]. simpl. done.
Qed.

Lemma unicode_no_space_app img s :
  img <> [] -> Forall (fun d => Unicode.isspace d = false) img ->
  Unicode.has_space_run (img ++ s) = Unicode.has_space_run s.
Proof.
  induction img as [|d img IH]; [done|]. intros _ [Hd Himg]%Forall_cons.
  change ((d :: img) ++ s) with (d :: (img ++ s)).
  rewrite unicode_has_space_run_cons, Hd. simpl.
  destruct img as [|d' img]; [done|]. by apply IH.
Qed.

Lemma unicode_lower_space_run before s :
  Unicode.has_space_run (Unicode.lower_from before s)
  = Unicode.has_space_run s.
Proof.
  revert before. induction s as [|c s IH]; intros before; [done|].
  change (Unicode.lower_from before (c :: s))
    with (Unicode.lower_at before c s ++ Unicode.lower_from (c :: before) s).
  rewrite unicode_has_space_run_cons.
  destruct (Unicode.isspace c) eqn:Hsp.
  - rewrite lower_at_space by done.
    change ([c] ++ ?l) with (c :: l).
    by rewrite unicode_has_space_run_cons, Hsp, unicode_lower_starts, IH.
  - destruct (lower_at_images before c s Hsp) as [Hne Himg].
    rewrite unicode_no_space_app, IH; [done | done |].
    eapply Forall_impl; [exact Himg|]. by intros d (? & _).
Qed.

Lemma unicode_lower_from_fixed before s :
  Forall (fun d => Unicode.lower_char d = [d] /\ d <> 0x3A3%N) s ->
  Unicode.lower_from before s = s.
Proof.
  revert before. induction s as [|d s IH]; intros before H; [done|].
  apply Forall_cons in H as [[Hd Hsigma] Hs]. simpl.
  unfold Unicode.lower_at. apply N.eqb_neq in Hsigma.
  by rewrite Hsigma, Hd, IH.
Qed.

Lemma unicode_lower_fixed before s :
  Forall (fun d => Unicode.lower_char d = [d] /\ d <> 0x3A3%N)
         (Unicode.lower_from before s).
Proof.
  apply (Forall_lower_from _ (fun _ => True)).
  - intros b c a _. apply lower_at_fixed.
  - by apply Forall_true.
Qed.

(** ** [clean] over all code points *)

Example unicode_clean_hi_there :
  Unicode.clean (Some (Unicode.codes "Hi   there!!"))
  = Unicode.codes "hi there!!".
Proof. vm_compute. reflexivity. Qed.

(** A capital sigma becomes a final sigma at the end of a word. *)
Example unicode_clean_sigma :
  Unicode.clean (Some [0x39F; 0x394; 0x39F; 0x3A3; 0x20; 0x3A3; 0x395]%N)
  = [0x3BF; 0x3B4; 0x3BF; 0x3C2; 0x20; 0x3C3; 0x3B5]%N.
Proof. vm_compute. reflexivity. Qed.

(** C6, as the specification states it, fails: the underscore belongs
    to [\w], so [clean] keeps it, and it is neither alphanumeric nor
    whitespace nor one of the four punctuation marks.  It fails once
    more for U+0130, a letter whose lowercase form is [i] followed by
    the combining dot above U+0307, which is no letter. *)
Lemma clean_keeps_underscore_and_dot_above :
  Unicode.clean (Some (Unicode.codes "a_b")) = Unicode.codes "a_b" /\
  ~ Forall Unicode.allowed_by_spec
      (Unicode.clean (Some (Unicode.codes "a_b"))) /\
  Unicode.clean (Some [0x130%N]) = [0x69; 0x307]%N /\
  ~ Forall Unicode.allowed_by_spec (Unicode.clean (Some [0x130%N])).
Proof.
  assert (Unicode.clean (Some (Unicode.codes "a_b")) = [0x61; 0x5F; 0x62]%N)
    as E1 by (vm_compute; reflexivity).
  assert (Unicode.clean (Some [0x130%N]) = [0x69; 0x307]%N)
    as E2 by (vm_compute; reflexivity).
  rewrite E1, E2.
  split; [vm_compute; reflexivity|]. split; [|split; [reflexivity|]].
  - intros H. apply Forall_cons in H as [_ H]. apply Forall_cons in H as [H _].
    destruct H as [H|[H|H]]; [vm_compute in H; discriminate H.. |].
    repeat (apply elem_of_cons in H as [H|H]; [discriminate H|]).
    by apply elem_of_nil in H.
  - intros H. apply Forall_cons in H as [_ H]. apply Forall_cons in H as [H _].
    destruct H as [H|[H|H]]; [vm_compute in H; discriminate H.. |].
    repeat (apply elem_of_cons in H as [H|H]; [discriminate H|]).
    by apply elem_of_nil in H.
Qed.

(** C6 (amended): every character of the output of [clean] on a string
    is alphanumeric, an underscore, a whitespace character, one of the
    four characters [.], [,], [?] and [!], or the combining dot above
    U+0307 that lowercasing makes from U+0130. *)
Theorem unicode_clean_characters (text : list N) :
  Forall Unicode.kept_by_clean (Unicode.clean (Some text)).
Proof.
  unfold Unicode.clean, Unicode.lower. apply unicode_Forall_strip.
  eapply Forall_lower_from; [|apply unicode_sub_special_not_special].
  intros b c a. apply kept_by_clean_lower_at.
Qed.

Lemma not_special_check text :
  forallb (fun c => negb (Unicode.special c)) text = true ->
  Forall (fun c => Unicode.special c = false) text.
Proof.
  rewrite forallb_forall, Forall_forall. intros H c Hc.
  apply negb_true_iff, H. by apply list_elem_of_In.
Qed.

(** C7, as the specification states it, fails: a removed character is
    replaced by a space after the runs of whitespace were collapsed, so
    two spaces can stand next to each other in the output. *)
Lemma clean_leaves_space_run :
  Unicode.clean (Some (Unicode.codes "a@ b")) = Unicode.codes "a  b" /\
  ~ Unicode.spec_clean_output (Unicode.clean (Some (Unicode.codes "a@ b"))).
Proof.
  split; [vm_compute; reflexivity|].
  intros (_ & _ & _ & H). vm_compute in H. discriminate H.
Qed.

(** A capital letter that has no lowercase form, such as U+1D400,
    passes through [clean] as it is. *)
Example unicode_clean_bold_capital :
  Unicode.clean (Some [0x1D400%N]) = [0x1D400%N].
Proof. vm_compute. reflexivity. Qed.

(** C7 (amended): the output of [clean] on a string is in lowercase, in
    that [lower] leaves it as it is; it has no leading or trailing
    whitespace and its only whitespace character is the space; and
    when the input has no character outside the kept class the output
    has no two adjacent whitespace characters. *)
Theorem unicode_clean_normalized (text : list N) :
  let out := Unicode.clean (Some text) in
  Unicode.lower out = out /\
  Unicode.starts_with_space out = false /\
  Unicode.ends_with_space out = false /\
  Forall (fun c => Unicode.isspace c = true -> c = Unicode.space) out /\
  (Forall (fun c => Unicode.special c = false) text ->
   Unicode.has_space_run out = false).
Proof.
  unfold Unicode.clean, Unicode.lower, Unicode.sub_ws; cbv zeta.
  repeat split.
  - apply unicode_lower_from_fixed, unicode_Forall_strip, unicode_lower_fixed.
  - apply unicode_rstrip_starts, unicode_lstrip_starts.
  - apply unicode_rstrip_ends.
  - apply unicode_Forall_strip, unicode_lower_only_space,
      unicode_sub_special_only_space, unicode_sub_ws_from_only_space.
  - intros H. apply unicode_rstrip_space_run, unicode_lstrip_space_run.
    rewrite unicode_lower_space_run, unicode_sub_special_id.
    + apply unicode_sub_ws_from_no_run.
    + by apply unicode_Forall_sub_ws_from.
Qed.

Lemma unicode_clean_normalized_witness :
  let out := Unicode.clean (Some (Unicode.codes "Hi   there!!")) in
  Forall (fun c => Unicode.isspace c = true -> c = Unicode.space) out /\
  Unicode.has_space_run out = false.
Proof.
  destruct (unicode_clean_normalized (Unicode.codes "Hi   there!!"))
    as (_ & _ & _ & Hsp & Hrun).
  split; [exact Hsp|].
  apply Hrun, not_special_check. vm_compute. reflexivity.
Defined.

(** ** The two models of [clean] agree *)

Lemma codes_isspace c : Unicode.isspace (N_of_ascii c) = isspace c.
Proof. by_cases_on_char c. Qed.

Lemma codes_special c : Unicode.special (N_of_ascii c) = special c.
Proof. by_cases_on_char c. Qed.

Lemma codes_lower_at before c after :
  Unicode.lower_at before (N_of_ascii c) after = [N_of_ascii (lower_char c)].
Proof. by_cases_on_char c. Qed.

Lemma codes_sub_ws_from b s :
  Unicode.sub_ws_from b (Unicode.codes s) = Unicode.codes (sub_ws_from b s).
Proof.
  revert b. induction s as [|c s IH]; intros b; [done|].
  change (Unicode.codes (String c s)) with (N_of_ascii c :: Unicode.codes s).
  simpl. rewrite codes_isspace.
  destruct (isspace c); [destruct b|]; by rewrite IH.
Qed.

Lemma codes_sub_special s :
  Unicode.sub_special (Unicode.codes s) = Unicode.codes (sub_special s).
Proof.
  induction s as [|c s IH]; [done|].
  change (Unicode.codes (String c s)) with (N_of_ascii c :: Unicode.codes s).
  unfold Unicode.sub_special in *. rewrite fmap_cons, IH, codes_special.
  simpl. destruct (special c); reflexivity.
Qed.

Lemma codes_lower_from before s :
  Unicode.lower_from before (Unicode.codes s) = Unicode.codes (lower s).
Proof.
  revert before. induction s as [|c s IH]; intros before; [done|].
  change (Unicode.codes (String c s)) with (N_of_ascii c :: Unicode.codes s).
  simpl. by rewrite codes_lower_at, IH.
Qed.

Lemma codes_lstrip s :
  Unicode.lstrip (Unicode.codes s) = Unicode.codes (lstrip s).
Proof.
  induction s as [|c s IH]; [done|].
  change (Unicode.codes (String c s)) with (N_of_ascii c :: Unicode.codes s).
  simpl. rewrite codes_isspace. by destruct (isspace c).
Qed.

Lemma codes_rstrip s :
  Unicode.rstrip (Unicode.codes s) = Unicode.codes (rstrip s).
Proof.
  induction s as [|c s IH]; [done|].
  change (Unicode.codes (String c s)) with (N_of_ascii c :: Unicode.codes s).
  simpl. rewrite IH, codes_isspace.
  destruct (rstrip s); [by destruct (isspace c) | done].
Qed.

(** On texts of code points up to U+00FF the function over all code
    points is the function of the 8-bit model. *)
Lemma codes_clean text :
  Unicode.clean (Some (Unicode.codes text))
  = Unicode.codes (clean (Some text)).
Proof.
  unfold Unicode.clean, clean, Unicode.sub_ws, sub_ws, Unicode.lower,
    Unicode.strip, strip; cbv zeta.
  by rewrite codes_sub_ws_from, codes_sub_special, codes_lower_from,
    codes_lstrip, codes_rstrip.
Qed.

(** ** The end-to-end scenario *)

(** C3, as the specification states it, fails: the labels [Question:]
    and [Answer:] are added after cleaning and keep their capitals, and
    the apostrophes were replaced by spaces. *)
Lemma anxious_row_combined_text_differs :
  combined_text anxious_row <>
  "question: i feel anxious" +:+ String newline
    "answer: that's understandable, let's talk about it".
Proof. discriminate. Qed.

(** C3 (amended): for the row of the scenario the combined text is
    [Question: i feel anxious], a newline, and
    [Answer: that s understandable, let s talk about it]; the row yields
    exactly one document, whose chunk is that text with the newline
    turned into a space. *)
Theorem anxious_row_documents :
  combined_text anxious_row =
    "Question: i feel anxious" +:+ String newline
      "Answer: that s understandable, let s talk about it" /\
  preprocess [anxious_row] =
    [ {| context := "i feel anxious";
         response := "that s understandable, let s talk about it";
         data := "Question: i feel anxious Answer: that s understandable, let s talk about it";
         metadata := {| original_context := Some "I feel anxious";
                        meta_response := 0 |} |} ].
Proof. split; reflexivity. Qed.

(** ** Loops that append to a list *)

Lemma fold_left_snoc {A B} (f : A -> B) (l : list A) (acc : list B) :
  fold_left (fun acc x => acc ++ [f x]) l acc = acc ++ map f l.
Proof.
  revert acc. induction l as [|x l IH]; intros acc; simpl.
  - by rewrite app_nil_r.
  - by rewrite IH, <- app_assoc.
Qed.

(** ** [range] *)

Lemma ceil_div_0 step : (0 < step)%nat -> ceil_div 0 step = 0%nat.
Proof. intros H. unfold ceil_div. apply Nat.div_small. lia. Qed.

Lemma ceil_div_small a step :
  (0 < a)%nat -> (a <= step)%nat -> ceil_div a step = 1%nat.
Proof.
  intros Ha Hs. unfold ceil_div.
  replace (a + step - 1)%nat with ((a - 1) + 1 * step)%nat by lia.
  rewrite Nat.div_add by lia. rewrite Nat.div_small; lia.
Qed.

Lemma ceil_div_step a step :
  (0 < step)%nat -> ceil_div (a + step) step = S (ceil_div a step).
Proof.
  intros Hs. unfold ceil_div.
  replace (a + step + step - 1)%nat with ((a + step - 1) + 1 * step)%nat by lia.
  rewrite Nat.div_add by lia. lia.
Qed.

(** [k = ceil_div a step] is the least [k] with [a <= k * step]. *)
Lemma ceil_div_spec a step :
  (0 < step)%nat ->
  (a <= ceil_div a step * step)%nat /\
  (forall k, (a <= k * step)%nat -> (ceil_div a step <= k)%nat).
Proof.
  intros Hs. unfold ceil_div.
  pose proof (Nat.div_mod (a + step - 1) step ltac:(lia)) as Hdm.
  pose proof (Nat.mod_upper_bound (a + step - 1) step ltac:(lia)) as Hub.
  split; [nia|].
  intros k Hk. apply Nat.lt_succ_r, Nat.Div0.div_lt_upper_bound. nia.
Qed.

(** The indices of [range] are the multiples of [step] below [stop]. *)
Lemma range_from_eq fuel i stop step :
  (0 < step)%nat -> (stop - i <= fuel)%nat ->
  range_from fuel i stop step
  = map (fun k => (i + k * step)%nat) (seq 0 (ceil_div (stop - i) step)).
Proof.
  intros Hs. revert i.
  induction fuel as [|fuel IH]; intros i Hf; simpl.
  - replace (stop - i)%nat with 0%nat by lia. by rewrite ceil_div_0.
  - destruct (Nat.ltb_spec i stop) as [Hlt|Hge].
    + rewrite IH by lia.
      assert (ceil_div (stop - i) step
              = S (ceil_div (stop - (i + step)) step)) as ->.
      { destruct (Nat.le_gt_cases (stop - i) step) as [Hle|Hgt].
        - replace (stop - (i + step))%nat with 0%nat by lia.
          rewrite ceil_div_0 by done. rewrite ceil_div_small; lia.
        - replace (stop - i)%nat with ((stop - (i + step)) + step)%nat by lia.
          by rewrite ceil_div_step. }
      simpl. f_equal; [lia|].
      rewrite <- seq_shift, map_map. apply map_ext. intros k. simpl. lia.
    + replace (stop - i)%nat with 0%nat by lia. by rewrite ceil_div_0.
Qed.

Lemma range_eq stop step :
  (0 < step)%nat ->
  range 0 stop step
  = map (fun k => (k * step)%nat) (seq 0 (ceil_div stop step)).
Proof.
  intros Hs. unfold range. rewrite range_from_eq by lia.
  by rewrite Nat.sub_0_r.
Qed.

Lemma range_length stop step :
  (0 < step)%nat -> length (range 0 stop step) = ceil_div stop step.
Proof.
  intros Hs. by rewrite range_eq, length_map, length_seq.
Qed.

Lemma range_nonempty stop step :
  (0 < stop)%nat -> exists rest, range 0 stop step = 0%nat :: rest.
Proof.
  intros H. unfold range. rewrite Nat.sub_0_r.
  destruct stop as [|n]; [lia|]. simpl. eauto.
Qed.

Lemma range_single stop step :
  (0 < stop)%nat -> (stop <= step)%nat -> range 0 stop step = [0%nat].
Proof.
  intros H Hle. unfold range. rewrite Nat.sub_0_r.
  destruct stop as [|n]; [lia|]. simpl. f_equal.
  destruct n as [|n]; [done|]. simpl.
  destruct (Nat.ltb_spec step (S (S n))); [lia | done].
Qed.

(** ** [chunking] *)

Lemma chunking_eq text :
  chunking text =
  map (fun i => join " " (take chunk_size (drop i (split text))))
      (range 0 (length (split text)) (chunk_size - overlap)).
Proof. unfold chunking. cbv zeta. by rewrite fold_left_snoc. Qed.

Lemma step_positive : (0 < chunk_size - overlap)%nat.
Proof. unfold chunk_size, overlap. lia. Qed.

Lemma step_value : (chunk_size - overlap = 450)%nat.
Proof. reflexivity. Qed.

Example chunking_three_words : chunking "a  b c " = ["a b c"].
Proof. reflexivity. Qed.

(** C4, as the specification states it, fails: with 451 words the loop
    starts a second window at index 450, so there are two chunks where
    the specification's formula gives one. *)
Lemma two_chunks_for_451_words :
  length (split (text_of_words 451)) = 451%nat /\
  length (chunking (text_of_words 451)) = 2%nat /\
  length (chunking (text_of_words 451))
    <> spec_chunk_count (length (split (text_of_words 451))).
Proof. vm_compute. repeat split; discriminate. Qed.

(** The same formula also fails above the window size: 901 words give
    three chunks, the formula gives two. *)
Example three_chunks_for_901_words :
  length (chunking (text_of_words 901)) = 3%nat /\
  spec_chunk_count 901 = 2%nat.
Proof. vm_compute. done. Qed.

(** C4 (amended): for every input text the number of chunks is
    [ceil(wordCount / 450)]: none for a text without words, one for 1
    to 450 words, two for 451 to 900 words, and so on. *)
Theorem chunking_count (text : string) :
  length (chunking text) = ceil_div (length (split text)) 450.
Proof.
  rewrite chunking_eq, length_map, range_length by apply step_positive.
  by rewrite step_value.
Qed.

(** C5, as the specification states it, fails: the empty string has no
    words, the loop body never runs and the result is the empty list;
    and a text of 451 words, fewer than 500, gives two chunks. *)
Lemma chunking_empty_or_two_chunks :
  chunking "" = [] /\ ~ spec_chunking "" /\
  ~ spec_chunking (text_of_words 451).
Proof.
  split; [reflexivity|]. split.
  - intros [H _]. by apply H.
  - intros [_ H]. assert ((length (split (text_of_words 451)) < 500)%nat) as Hlt.
    { vm_compute. lia. }
    apply H, (f_equal length) in Hlt. vm_compute in Hlt. discriminate Hlt.
Qed.

(** C5 (amended): the chunker returns a non-empty sequence exactly when
    the input has at least one word; whenever the input has between 1
    and 500 words the first chunk consists of all the input's words
    joined by single spaces, and it is the only chunk when the input has
    at most 450 words. *)
Theorem chunking_shape (text : string) :
  let words := split text in
  (chunking text <> [] <-> words <> []) /\
  ((1 <= length words <= 500)%nat ->
   head (chunking text) = Some (join " " words)) /\
  ((1 <= length words <= 450)%nat -> chunking text = [join " " words]).
Proof.
  cbv zeta. rewrite chunking_eq. repeat split.
  - intros H Hw. apply H. by rewrite Hw.
  - intros Hw. destruct (range_nonempty (length (split text))
                           (chunk_size - overlap)) as [rest ->]; [|done].
    destruct (split text); [done | simpl; lia].
  - intros [H1 H2].
    destruct (range_nonempty (length (split text)) (chunk_size - overlap))
      as [rest ->]; [lia|].
    simpl. by rewrite drop_0, take_ge.
  - intros [H1 H2]. rewrite range_single by (rewrite ?step_value; lia).
    simpl. rewrite drop_0, take_ge; [done|]. unfold chunk_size. lia.
Qed.

Lemma chunking_shape_witness :
  head (chunking "to be or not") = Some "to be or not" /\
  chunking "to be or not" = ["to be or not"].
Proof.
  destruct (chunking_shape "to be or not") as (_ & Hhead & Hone).
  split; [apply Hhead | apply Hone]; vm_compute; lia.
Defined.

(** ** [preprocess] *)

Lemma emit_chunks_eq row c r chunks documents :
  emit_chunks row c r chunks documents =
  documents ++
  imap (fun k chunk =>
          {| context := c; response := r; data := chunk;
             metadata := {| original_context := row_Context row;
                            meta_response := length documents + k |} |})
       chunks.
Proof.
  unfold emit_chunks. revert documents.
  induction chunks as [|chunk chunks IH]; intros documents; simpl.
  - by rewrite app_nil_r.
  - rewrite IH, <- app_assoc. simpl. rewrite Nat.add_0_r.
    do 2 f_equal. apply imap_ext. intros k x _. simpl.
    rewrite length_app. simpl. do 2 f_equal. lia.
Qed.

Lemma process_row_eq documents row :
  process_row documents row =
  documents ++
  imap (fun k chunk => document_of row (length documents + k) chunk)
       (chunking (combined_text row)).
Proof. unfold process_row. cbv zeta. by rewrite emit_chunks_eq. Qed.

Lemma preprocess_snoc df row :
  preprocess (df ++ [row]) = process_row (preprocess df) row.
Proof. unfold preprocess. by rewrite fold_left_app. Qed.

Lemma fold_process_row_extends df documents :
  exists rest, fold_left process_row df documents = documents ++ rest.
Proof.
  revert documents. induction df as [|row df IH]; intros documents; simpl.
  - exists []. by rewrite app_nil_r.
  - destruct (IH (process_row documents row)) as [rest ->].
    rewrite process_row_eq, <- app_assoc. eauto.
Qed.

Lemma split_from_nonempty word text :
  word <> "" -> split_from word text <> [].
Proof.
  revert word. induction text as [|c text IH]; intros word Hw; simpl.
  - by destruct word.
  - destruct (isspace c).
    + by destruct word.
    + apply IH. by destruct word.
Qed.

Lemma chunking_combined_text_nonempty row :
  chunking (combined_text row) <> [].
Proof.
  rewrite chunking_eq.
  destruct (range_nonempty (length (split (combined_text row)))
              (chunk_size - overlap)) as [rest ->]; [|done].
  assert (split (combined_text row) <> []) as H.
  { change (split (combined_text row))
      with (split_from "Q"
              ("uestion: " +:+ clean (row_Context row)
               +:+ String newline "Answer: " +:+ clean (row_Response row))).
    by apply split_from_nonempty. }
  destruct (split (combined_text row)); [done | simpl; lia].
Qed.

Lemma document_of_from_row row count chunk :
  chunk ∈ chunking (combined_text row) ->
  from_row row (document_of row count chunk).
Proof. intros H. by repeat split. Qed.

Lemma imap_from_row row n chunks :
  chunks ⊆ chunking (combined_text row) ->
  Forall (from_row row)
         (imap (fun k chunk => document_of row (n + k) chunk) chunks).
Proof.
  intros Hsub. apply Forall_lookup. intros i d.
  rewrite list_lookup_imap. intros (chunk & Hc & ->)%fmap_Some.
  apply document_of_from_row, Hsub. by eapply list_elem_of_lookup_2.
Qed.

(** C8: every document that the preprocessor emits carries in its
    metadata the unmodified [Context] value of the row it was made
    from, and a count equal to the number of documents emitted before
    it: the document at position [i] carries [i]. *)
Theorem preprocess_metadata (df : list Row) (i : nat) (d : Document) :
  preprocess df !! i = Some d ->
  meta_response (metadata d) = i /\
  exists j row,
    df !! j = Some row /\
    (length (preprocess (take j df)) <= i
     < length (preprocess (take (S j) df)))%nat /\
    original_context (metadata d) = row_Context row /\
    from_row row d.
Proof.
  revert i d. induction df as [|row df IH] using rev_ind; intros i d.
  - intros H. discriminate H.
  - rewrite preprocess_snoc, process_row_eq.
    intros [H | [Hle H]]%lookup_app_Some.
    + destruct (IH i d H) as (Hcount & j & r & Hj & Hrange & Hctx & Hfrom).
      split; [done|]. exists j, r.
      pose proof (lookup_lt_Some _ _ _ Hj) as Hlt.
      rewrite lookup_app_l by done.
      rewrite !take_app_le by lia. done.
    + apply list_lookup_imap_Some in H as (chunk & Hc & ->).
      split; [simpl; lia|]. exists (length df), row.
      rewrite list_lookup_middle by done.
      rewrite take_app_length.
      rewrite take_ge by (rewrite length_app; simpl; lia).
      rewrite preprocess_snoc, process_row_eq, length_app, length_imap.
      pose proof (lookup_lt_Some _ _ _ Hc) as Hlt.
      repeat split; try done; try lia.
      by eapply list_elem_of_lookup_2.
Qed.

Lemma preprocess_metadata_witness :
  exists d, preprocess [anxious_row; anxious_row] !! 1%nat = Some d /\
            meta_response (metadata d) = 1%nat /\
            original_context (metadata d) = Some "I feel anxious".
Proof.
  eexists. split; [reflexivity|].
  destruct (preprocess_metadata [anxious_row; anxious_row] 1 _ eq_refl)
    as (Hcount & _).
  split; [exact Hcount | reflexivity].
Defined.

(** C9: every row makes the preprocessor emit at least one document:
    the documents of [row] follow those of the rows before it, and there
    is at least one of them, because the formatted text always has the
    word [Question:]. *)
Theorem preprocess_row_emits (before after : list Row) (row : Row) :
  exists d ds rest,
    preprocess (before ++ row :: after)
      = preprocess before ++ (d :: ds) ++ rest /\
    Forall (from_row row) (d :: ds).
Proof.
  unfold preprocess. rewrite fold_left_app. simpl.
  destruct (fold_process_row_extends after
              (process_row (fold_left process_row before []) row))
    as [rest ->].
  rewrite process_row_eq.
  pose proof (chunking_combined_text_nonempty row) as Hne.
  pose proof (imap_from_row row (length (fold_left process_row before []))
                (chunking (combined_text row)) (reflexivity _)) as Hall.
  destruct (imap _ (chunking (combined_text row))) as [|d ds] eqn:E.
  - apply (f_equal length) in E. rewrite length_imap in E.
    destruct (chunking (combined_text row)); [done | discriminate E].
  - exists d, ds, rest. split; [by rewrite <- app_assoc | done].
Qed.

(** ** [chat_endpoint] *)

Example str_exn_http_exception :
  str_exn (HTTPException 404 "Not Found") = "404: Not Found".
Proof. reflexivity. Qed.

Lemma append_sources_lookup docs (result : gmap string pyval) answer sources :
  result !! "response" = Some answer ->
  result !! "sources" = Some (PList sources) ->
  let result' :=
    fold_left (fun result doc => append_source result (make_source doc))
              docs result in
  result' !! "response" = Some answer /\
  result' !! "sources" = Some (PList (sources ++ map make_source docs)).
Proof.
  cbv zeta. revert result sources.
  induction docs as [|doc docs IH]; intros result sources Ha Hs; simpl.
  - by rewrite app_nil_r.
  - destruct (IH (append_source result (make_source doc))
                (sources ++ [make_source doc])) as [IH1 IH2].
    + unfold append_source. rewrite Hs. by rewrite lookup_insert_ne.
    + unfold append_source. rewrite Hs. by rewrite lookup_insert_eq.
    + split; [done|]. by rewrite IH2, <- app_assoc.
Qed.

Lemma chat_endpoint_raise chain question e :
  chain_invoke chain (chain_inputs question) = Raise e ->
  chat_endpoint chain question =
  ([Invoke (chain_inputs question);
    LogError ("Error processing question: " +:+ str_exn e)],
   Raise (HTTPException 500 "Error processing your question")).
Proof.
  intros H. unfold chat_endpoint, invoke, bind, try_except.
  fold (chain_inputs question). by rewrite H.
Qed.

(** The outcomes of a request: the chain is called once, first, and the
    response is a 200 or the generic 500. *)
Lemma post_chat_cases chain question :
  exists events resp,
    post_chat chain question = (Invoke (chain_inputs question) :: events, resp) /\
    invocations events = [] /\
    (status resp = 200%nat \/
     (status resp = 500%nat /\ body resp = generic_error_body)).
Proof.
  unfold post_chat, chat_endpoint, invoke, bind, try_except.
  fold (chain_inputs question).
  destruct (chain_invoke chain (chain_inputs question)) as [r|e].
  - destruct (r !! "source_documents") as [[|s|n|items|entries|attrs]|];
      simpl; eexists _, _; (split; [reflexivity|]); simpl; auto.
  - simpl. eexists _, _. split; [reflexivity|]. simpl. auto.
Qed.

(** C1, as the specification states it, fails: the handler has no check
    of the query, so the empty query is passed to the chain like any
    other, and the chain's answer comes back with status 200. *)
Lemma empty_query_reaches_chain :
  post_chat silent_chain {| query := "" |} =
    ([Invoke {[ "query" := PStr "" ]}],
     {| status := 200;
        body := PDict {[ "response" := PStr "No response generated";
                         "sources" := PList [] ]} |}) /\
  ~ spec_rejects_empty_query silent_chain.
Proof.
  split; [reflexivity|].
  unfold spec_rejects_empty_query. intros [H _]. discriminate H.
Qed.

(** C1 (amended): for every POST /chat request whose query is the empty
    string, the chain's [invoke] is called exactly once, with the empty
    query, and the response is a 200 or the generic 500, never a client
    error. *)
Theorem empty_query_invokes_chain (chain : Chain) :
  let '(events, resp) := post_chat chain {| query := "" |} in
  invocations events = [ {[ "query" := PStr "" ]} ] /\
  is_client_error (status resp) = false /\
  (status resp = 200%nat \/
   (status resp = 500%nat /\ body resp = generic_error_body)).
Proof.
  destruct (post_chat_cases chain {| query := "" |})
    as (events & resp & -> & Hinv & Hstatus).
  simpl. rewrite Hinv. split; [done|]. split; [|done].
  by destruct Hstatus as [-> | [-> _]].
Qed.

(** C2: whenever the chain's [invoke] raises, the response has status
    500 and the body [{"detail": "Error processing your question"}]:
    the same response for every exception, whose text goes to the log
    only. *)
Theorem invoke_failure_response (chain : Chain) (question : Question)
    (e : exn) :
  chain_invoke chain (chain_inputs question) = Raise e ->
  post_chat chain question =
    ([Invoke (chain_inputs question);
      LogError ("Error processing question: " +:+ str_exn e)],
     {| status := 500; body := generic_error_body |}).
Proof.
  intros H. unfold post_chat. by rewrite (chat_endpoint_raise _ _ _ H).
Qed.

Lemma invoke_failure_response_witness :
  (post_chat (failing_chain (Exception "ConnectionError" "ollama is down"))
             {| query := "I feel anxious" |}).2
  = {| status := 500; body := generic_error_body |}.
Proof.
  rewrite (invoke_failure_response
             (failing_chain (Exception "ConnectionError" "ollama is down"))
             {| query := "I feel anxious" |}
             (Exception "ConnectionError" "ollama is down"));
    reflexivity.
Defined.

(** C10: the body of every successful response has the keys [response]
    and [sources]; [response] is ['No response generated'] when the
    chain's result has no ['result'] key, and [sources] is the empty
    list when it has no ['source_documents'] key. *)
Theorem success_body_keys (chain : Chain) (question : Question)
    (events : list event) (resp : Response) :
  post_chat chain question = (events, resp) ->
  status resp = 200%nat ->
  exists (chain_result value : gmap string pyval) answer sources,
    chain_invoke chain (chain_inputs question) = Return chain_result /\
    body resp = PDict value /\
    value !! "response" = Some answer /\
    value !! "sources" = Some (PList sources) /\
    (chain_result !! "result" = None ->
     answer = PStr "No response generated") /\
    (chain_result !! "source_documents" = None -> sources = []).
Proof.
  unfold post_chat, chat_endpoint, invoke, bind, try_except.
  fold (chain_inputs question).
  destruct (chain_invoke chain (chain_inputs question)) as [r|e];
    [|simpl; intros [= <- <-]; discriminate].
  set (result := ({[ "response" := _; "sources" := _ ]} : gmap string pyval)).
  assert (result !! "response"
          = Some (dict_get r "result" (PStr "No response generated")))
    as Hanswer by done.
  assert (result !! "sources" = Some (PList [])) as Hsources by done.
  assert (r !! "result" = None ->
          dict_get r "result" (PStr "No response generated")
          = PStr "No response generated") as Hdefault.
  { intros Hr. unfold dict_get. by rewrite Hr. }
  destruct (r !! "source_documents") as [source_documents|] eqn:Hsd.
  - destruct (iterate source_documents) as [t [docs|e]] eqn:Hit;
      [|simpl; intros [= <- <-]; discriminate].
    destruct (append_sources_lookup docs result _ _ Hanswer Hsources)
      as [H1 H2].
    simpl. intros [= <- <-] _.
    exists r, (fold_left
                 (fun result doc => append_source result (make_source doc))
                 docs result),
      (dict_get r "result" (PStr "No response generated")),
      ([] ++ map make_source docs).
    split; [done|]. split; [done|]. split; [exact H1|]. split; [exact H2|].
    split; [exact Hdefault | congruence].
  - simpl. intros [= <- <-] _.
    exists r, result,
      (dict_get r "result" (PStr "No response generated")), [].
    split; [done|]. split; [done|]. split; [exact Hanswer|].
    split; [exact Hsources|]. split; [exact Hdefault | done].
Qed.

Lemma success_body_keys_witness :
  exists value : gmap string pyval,
    body (post_chat silent_chain {| query := "I feel anxious" |}).2
      = PDict value /\
    value !! "response" = Some (PStr "No response generated") /\
    value !! "sources" = Some (PList []).
Proof.
  destruct (success_body_keys silent_chain {| query := "I feel anxious" |}
              _ _ eq_refl eq_refl)
    as (r & value & answer & sources & Hr & Hbody & Ha & Hs & Hda & Hds).
  injection Hr as <-.
  exists value. rewrite (Hda eq_refl), (Hds eq_refl) in *. done.
Defined.

(** ** More on [clean] *)








(** ** The fixed points of [clean] *)

Lemma unicode_sub_ws_from_id b s :
  (b = true -> Unicode.starts_with_space s = false) ->
  Unicode.has_space_run s = false ->
  Forall (fun c => Unicode.isspace c = true -> c = Unicode.space) s ->
  Unicode.sub_ws_from b s = s.
Proof.
  revert b. induction s as [|c s IH]; intros b Hb Hrun Hsp; [done|].
  apply Forall_cons in Hsp as [Hc Hsp].
  pose proof (unicode_has_space_run_tail _ _ Hrun) as Ht.
  rewrite unicode_has_space_run_cons in Hrun.
  apply orb_false_elim in Hrun as [Hrun _].
  simpl. destruct (Unicode.isspace c) eqn:E.
  - destruct b; [simpl in Hb; rewrite E in Hb; by discriminate Hb|].
    rewrite (Hc eq_refl). f_equal. by apply IH.
  - f_equal. by apply IH.
Qed.

Lemma unicode_lstrip_id s :
  Unicode.starts_with_space s = false -> Unicode.lstrip s = s.
Proof. destruct s as [|c s]; simpl; [done|]. by intros ->. Qed.

Lemma unicode_rstrip_id s :
  Unicode.ends_with_space s = false -> Unicode.rstrip s = s.
Proof.
  induction s as [|c s IH]; [done|]. intros H. simpl.
  destruct s as [|c2 s]; [simpl in *; by rewrite H|].
  rewrite IH by done. done.
Qed.

Lemma unicode_Forall_sub_special (P : N -> Prop) s :
  P Unicode.space -> Forall P s -> Forall P (Unicode.sub_special s).
Proof.
  intros Hsp H. unfold Unicode.sub_special. apply Forall_fmap.
  eapply Forall_impl; [exact H|]. intros c Hc. simpl.
  by destruct (Unicode.special c).
Qed.

Lemma special_of_kept d :
  Unicode.isalnum d = true \/ d = 0x5F%N \/ Unicode.isspace d = true
  \/ d ∈ [0x2E; 0x2C; 0x3F; 0x21]%N ->
  Unicode.special d = false.
Proof.
  unfold Unicode.special, Unicode.isword.
  intros [->|[->|[->|H]]]; [done | by rewrite orb_true_r | by rewrite orb_true_r |].
  repeat (apply elem_of_cons in H as [->|H]; [by rewrite !orb_true_r|]).
  by apply elem_of_nil in H.
Qed.

Lemma lower_at_not_special before c after :
  Unicode.special c = false -> c <> 0x130%N ->
  Forall (fun d => Unicode.special d = false)
         (Unicode.lower_at before c after).
Proof.
  intros Hkept Hc. destruct (Unicode.isspace c) eqn:Hsp.
  - rewrite lower_at_space by done. by constructor.
  - destruct (lower_at_images before c after Hsp) as [_ Himg].
    unfold Unicode.special, Unicode.isword in Hkept.
    rewrite Hsp, orb_false_r in Hkept. apply negb_false_iff in Hkept.
    apply orb_prop in Hkept as [[Halnum|Hus]%orb_prop|Hpunct].
    + eapply Forall_impl; [exact Himg|].
      intros d (_ & _ & _ & Hd). destruct (Hd Halnum) as [?|[? _]]; [|done].
      apply special_of_kept. by left.
    + apply N.eqb_eq in Hus. subst c. by constructor.
    + unfold Unicode.ispunct in Hpunct.
      repeat (apply orb_prop in Hpunct as [Hpunct|Hpunct]);
        apply N.eqb_eq in Hpunct; subst c; by constructor.
Qed.

Lemma fixed_not_dotted s :
  Forall (fun d => Unicode.lower_char d = [d] /\ d <> 0x3A3%N) s ->
  Forall (fun d => d <> 0x130%N) s.
Proof.
  intros H. eapply Forall_impl; [exact H|].
  intros d [Hd _] ->. discriminate Hd.
Qed.

Lemma unicode_clean_fixed text :
  Forall (fun d => Unicode.lower_char d = [d] /\ d <> 0x3A3%N)
         (Unicode.clean (Some text)).
Proof.
  unfold Unicode.clean, Unicode.lower.
  apply unicode_Forall_strip, unicode_lower_fixed.
Qed.

Lemma unicode_clean_not_special text :
  Forall (fun c => c <> 0x130%N) text ->
  Forall (fun c => Unicode.special c = false) (Unicode.clean (Some text)).
Proof.
  intros H. unfold Unicode.clean, Unicode.lower, Unicode.sub_ws.
  apply unicode_Forall_strip.
  apply (Forall_lower_from _
           (fun c => Unicode.special c = false /\ c <> 0x130%N)).
  - intros b c a [? ?]. by apply lower_at_not_special.
  - apply Forall_and. split; [apply unicode_sub_special_not_special|].
    by apply unicode_Forall_sub_special, unicode_Forall_sub_ws_from.
Qed.

Lemma unicode_clean_no_run text :
  Forall (fun c => Unicode.special c = false) text ->
  Unicode.has_space_run (Unicode.clean (Some text)) = false.
Proof.
  intros H. unfold Unicode.clean, Unicode.lower, Unicode.sub_ws.
  apply unicode_rstrip_space_run, unicode_lstrip_space_run.
  rewrite unicode_lower_space_run, unicode_sub_special_id.
  - apply unicode_sub_ws_from_no_run.
  - by apply unicode_Forall_sub_ws_from.
Qed.

Lemma unicode_clean_gives_normalized text :
  Forall (fun c => Unicode.special c = false) text ->
  Forall (fun c => c <> 0x130%N) text ->
  Unicode.normalized (Unicode.clean (Some text)).
Proof.
  intros Hsp Hdot. split; [|split; [|split; [|split; [|split]]]].
  - apply unicode_lower_from_fixed, unicode_clean_fixed.
  - by apply unicode_clean_not_special.
  - unfold Unicode.clean, Unicode.lower, Unicode.sub_ws.
    apply unicode_Forall_strip, unicode_lower_only_space,
      unicode_sub_special_only_space, unicode_sub_ws_from_only_space.
  - apply unicode_rstrip_starts, unicode_lstrip_starts.
  - apply unicode_rstrip_ends.
  - by apply unicode_clean_no_run.
Qed.

Lemma unicode_normalized_clean_id t :
  Unicode.normalized t -> Unicode.clean (Some t) = t.
Proof.
  intros (Hlow & Hsp & Hws & Hstart & Hend & Hrun).
  unfold Unicode.clean, Unicode.sub_ws, Unicode.strip; cbv zeta.
  rewrite unicode_sub_ws_from_id by done.
  rewrite unicode_sub_special_id by done.
  rewrite Hlow.
  rewrite unicode_lstrip_id by done.
  by apply unicode_rstrip_id.
Qed.

(** X4: the texts that [clean] leaves unchanged are exactly the
    normalized ones: texts that [lower] leaves unchanged, with no
    character outside the kept class and no whitespace but single
    spaces between words. *)
Theorem unicode_clean_fixed_point (text : list N) :
  Unicode.clean (Some text) = text <-> Unicode.normalized text.
Proof.
  split; [|apply unicode_normalized_clean_id].
  intros H.
  assert (Forall (fun c => c <> 0x130%N) text) as Hdot.
  { rewrite <- H. apply fixed_not_dotted, unicode_clean_fixed. }
  assert (Forall (fun c => Unicode.special c = false) text) as Hsp.
  { rewrite <- H. by apply unicode_clean_not_special. }
  pose proof (unicode_clean_gives_normalized text Hsp Hdot) as Hn.
  by rewrite H in Hn.
Qed.

Lemma unicode_clean_fixed_point_witness :
  Unicode.normalized (Unicode.codes "hi there!!").
Proof. apply unicode_clean_fixed_point. vm_compute. reflexivity. Defined.

(** X5: [clean] is not idempotent, but it stabilizes: a fourth pass
    never changes the result of the third; and when the text has no
    character outside the kept class and no U+0130, the second pass
    already changes nothing. *)
Theorem unicode_clean_stabilizes (text : list N) :
  let pass t := Unicode.clean (Some t) in
  pass (pass (pass (pass text))) = pass (pass (pass text)) /\
  (Forall (fun c => Unicode.special c = false) text ->
   Forall (fun c => c <> 0x130%N) text ->
   pass (pass text) = pass text).
Proof.
  cbv zeta. split.
  - apply unicode_normalized_clean_id, unicode_clean_gives_normalized.
    + apply unicode_clean_not_special, fixed_not_dotted, unicode_clean_fixed.
    + apply fixed_not_dotted, unicode_clean_fixed.
  - intros Hsp Hdot.
    by apply unicode_normalized_clean_id, unicode_clean_gives_normalized.
Qed.

Lemma not_dotted_check text :
  forallb (fun c => negb (c =? 0x130)%N) text = true ->
  Forall (fun c => c <> 0x130%N) text.
Proof.
  rewrite forallb_forall, Forall_forall. intros H c Hc.
  apply N.eqb_neq, negb_true_iff, H. by apply list_elem_of_In.
Qed.

Lemma unicode_clean_stabilizes_witness :
  Unicode.clean (Some (Unicode.clean (Some (Unicode.codes "Hi   there!!"))))
  = Unicode.clean (Some (Unicode.codes "Hi   there!!")).
Proof.
  apply (unicode_clean_stabilizes (Unicode.codes "Hi   there!!")).
  - apply not_special_check. vm_compute. reflexivity.
  - apply not_dotted_check. vm_compute. reflexivity.
Defined.

(** The passes of [clean] on U+0130, space, [b]: the second pass
    replaces the combining dot that the first has made, the third
    collapses the two spaces that the second has left. *)
Example unicode_clean_three_passes :
  let pass t := Unicode.clean (Some t) in
  pass [0x130; 0x20; 0x62]%N = [0x69; 0x307; 0x20; 0x62]%N /\
  pass (pass [0x130; 0x20; 0x62]%N) = [0x69; 0x20; 0x20; 0x62]%N /\
  pass (pass (pass [0x130; 0x20; 0x62]%N)) = [0x69; 0x20; 0x62]%N.
Proof. vm_compute. repeat split; reflexivity. Qed.

(** ** Words: [split] and [join] *)

Lemma string_app_cons c s t : String c s +:+ t = String c (s +:+ t).
Proof. reflexivity. Qed.

Lemma string_app_nil_r s : s +:+ "" = s.
Proof.
  induction s as [|c s IH]; [done|]. by rewrite string_app_cons, IH.
Qed.

Lemma string_app_assoc s t u : (s +:+ t) +:+ u = s +:+ (t +:+ u).
Proof.
  induction s as [|c s IH]; [done|]. by rewrite !string_app_cons, IH.
Qed.

Lemma characters_app s t :
  characters (s +:+ t) = characters s ++ characters t.
Proof.
  induction s as [|c s IH]; [done|].
  rewrite string_app_cons. simpl. by rewrite <- IH.
Qed.

(** A whitespace character ends the word being read. *)
Lemma split_from_app_space word a c b :
  isspace c = true ->
  split_from word (a +:+ String c b) = split_from word a ++ split b.
Proof.
  intros Hc. revert word.
  induction a as [|x a IH]; intros word.
  - change ("" +:+ String c b) with (String c b). simpl. rewrite Hc.
    by destruct word.
  - rewrite string_app_cons. simpl.
    destruct (isspace x); [destruct word|]; by rewrite IH.
Qed.

Lemma split_from_no_space word u :
  Forall (fun c => isspace c = false) (characters u) ->
  word +:+ u <> "" ->
  split_from word u = [word +:+ u].
Proof.
  revert word. induction u as [|c u IH]; intros word Hu Hne.
  - rewrite string_app_nil_r in *. simpl. by destruct word.
  - apply Forall_cons in Hu as [Hc Hu]. simpl. rewrite Hc.
    assert ((word +:+ String c "") +:+ u = word +:+ String c u) as E
      by apply string_app_assoc.
    rewrite IH; [by rewrite E | done | by rewrite E].
Qed.

Lemma split_word w : is_word w -> split w = [w].
Proof. intros [Hne Hw]. by apply (split_from_no_space ""). Qed.

Lemma split_from_words word text :
  Forall (fun c => isspace c = false) (characters word) ->
  Forall is_word (split_from word text).
Proof.
  revert word. induction text as [|c text IH]; intros word Hw; simpl.
  - destruct word; [done|]. constructor; [by split | done].
  - destruct (isspace c) eqn:E.
    + destruct word; [by apply IH|].
      constructor; [by split | by apply IH].
    + apply IH. rewrite characters_app. apply Forall_app. split; [done|].
      simpl. by constructor.
Qed.

Lemma split_words text : Forall is_word (split text).
Proof. by apply split_from_words. Qed.

Lemma split_join words :
  Forall is_word words -> split (join " " words) = words.
Proof.
  induction words as [|w words IH]; [done|].
  intros [Hw Hws]%Forall_cons.
  destruct words as [|w2 words]; [by apply split_word|].
  change (join " " (w :: w2 :: words))
    with (w +:+ String space (join " " (w2 :: words))).
  unfold split. rewrite split_from_app_space by done.
  fold (split w). by rewrite split_word, IH.
Qed.

(** ** The windows of [chunking] *)

Lemma length_chunking text :
  length (chunking text) = ceil_div (length (split text)) 450.
Proof.
  rewrite chunking_eq, length_map, range_length by apply step_positive.
  by rewrite step_value.
Qed.

Lemma ceil_div_gt n k step :
  (0 < step -> k < ceil_div n step <-> k * step < n)%nat.
Proof.
  intros Hs. destruct (ceil_div_spec n step Hs) as [Hup Hleast]. split.
  - intros Hk. destruct (Nat.le_gt_cases n (k * step)) as [Hle|]; [|done].
    specialize (Hleast k Hle). lia.
  - intros Hk. destruct (Nat.le_gt_cases (ceil_div n step) k) as [Hle|]; [|done].
    nia.
Qed.

Lemma chunking_lookup text k c :
  chunking text !! k = Some c <->
  (450 * k < length (split text))%nat /\
  c = join " " (take 500 (drop (450 * k) (split text))).
Proof.
  rewrite chunking_eq, range_eq by apply step_positive.
  rewrite step_value, !list_lookup_fmap.
  destruct (seq 0 (ceil_div (length (split text)) 450) !! k) as [j|] eqn:E;
    simpl.
  - apply lookup_seq in E as [E Hk]. rewrite Nat.add_0_l in E. subst j.
    apply ceil_div_gt in Hk; [|lia].
    replace (k * 450)%nat with (450 * k)%nat by lia.
    split; [intros [= <-]; split; [lia | done] | intros [_ ->]; done].
  - apply lookup_ge_None in E. rewrite length_seq in E.
    split; [done|]. intros [Hk _].
    assert (k < ceil_div (length (split text)) 450)%nat
      by (apply ceil_div_gt; lia).
    lia.
Qed.

Lemma window_words text k :
  Forall is_word (take 500 (drop (450 * k) (split text))).
Proof. apply Forall_take, Forall_drop, split_words. Qed.

(** X6: the chunk at position [k] is made of the words at the indices
    [450 * k] to [450 * k + 499] of the text, joined by single spaces:
    splitting it again gives exactly these words, between 1 and 500 of
    them, and joining them again gives the chunk. *)
Theorem chunk_words (text : string) (k : nat) (c : string) :
  chunking text !! k = Some c ->
  split c = take 500 (drop (450 * k) (split text)) /\
  (1 <= length (split c) <= 500)%nat /\
  join " " (split c) = c.
Proof.
  intros [Hk ->]%chunking_lookup.
  rewrite split_join by apply window_words.
  split; [done|]. split; [|done].
  rewrite length_take, length_drop. lia.
Qed.

Lemma chunk_words_witness :
  split "to be or not" = take 500 (drop (450 * 0) (split "to  be or  not ")).
Proof.
  apply (chunk_words "to  be or  not " 0 "to be or not"). reflexivity.
Defined.

(** X7: consecutive chunks overlap: the first 50 words of a chunk are
    the words that the chunk before it has from its 451st word on (all
    of the chunk, when it has fewer than 50 words). *)
Theorem chunk_overlap (text : string) (k : nat) (c1 c2 : string) :
  chunking text !! k = Some c1 ->
  chunking text !! S k = Some c2 ->
  take 50 (split c2) = drop 450 (split c1).
Proof.
  intros [_ ->]%chunking_lookup [_ ->]%chunking_lookup.
  rewrite !split_join by apply window_words.
  rewrite take_take, Nat.min_l by lia.
  change 500%nat with (450 + 50)%nat at 1.
  rewrite <- take_drop_commute, drop_drop.
  by replace (450 * S k)%nat with (450 * k + 450)%nat by lia.
Qed.

Lemma chunk_overlap_witness :
  take 50 (split "w") = drop 450 (split (text_of_words 451)).
Proof.
  apply (chunk_overlap (text_of_words 451) 0 (text_of_words 451) "w");
    vm_compute; reflexivity.
Defined.

(** X8: no word is lost: the word at index [j] of the text is the word
    at index [j mod 450] of the chunk at position [j / 450]. *)
Theorem chunk_coverage (text : string) (j : nat) (w : string) :
  split text !! j = Some w ->
  exists c, chunking text !! (j / 450)%nat = Some c /\
            split c !! (j mod 450)%nat = Some w.
Proof.
  intros Hj. pose proof (lookup_lt_Some _ _ _ Hj) as Hlt.
  pose proof (Nat.div_mod_eq j 450) as Hdm.
  pose proof (Nat.mod_upper_bound j 450 ltac:(lia)) as Hub.
  revert Hdm Hub. generalize (j / 450)%nat (j mod 450)%nat. intros k r Hdm Hub.
  exists (join " " (take 500 (drop (450 * k) (split text)))). split.
  - apply chunking_lookup. split; [lia | done].
  - rewrite split_join by apply window_words.
    rewrite lookup_take_lt by lia. rewrite lookup_drop. by rewrite <- Hdm.
Qed.

Lemma chunk_coverage_witness :
  exists c, chunking "to be or not" !! (2 / 450)%nat = Some c /\
            split c !! (2 mod 450)%nat = Some "or".
Proof. apply chunk_coverage. reflexivity. Defined.

(** ** The documents of a row and of a data frame *)

Lemma split_format_data c r :
  split (format_data c r) = "Question:" :: split c ++ "Answer:" :: split r.
Proof.
  change (format_data c r)
    with ("Question:" +:+ String space
            (c +:+ String newline ("Answer:" +:+ String space r))).
  unfold split at 1.
  rewrite split_from_app_space by done.
  rewrite (split_from_app_space "" c newline) by done.
  fold (split c). unfold split at 2.
  rewrite split_from_app_space by done.
  reflexivity.
Qed.

Lemma length_split_combined_text row :
  length (split (combined_text row))
  = (2 + length (split (clean (row_Context row)))
       + length (split (clean (row_Response row))))%nat.
Proof.
  unfold combined_text. rewrite split_format_data.
  simpl. rewrite length_app. simpl. lia.
Qed.

Lemma length_process_row documents row :
  length (process_row documents row)
  = (length documents + documents_of_row row)%nat.
Proof.
  rewrite process_row_eq, length_app, length_imap, length_chunking.
  by rewrite length_split_combined_text.
Qed.

(** X9: the combined text of a row has the word [Question:], the words
    of the cleaned context, the word [Answer:] and the words of the
    cleaned response, in this order; so the row gives
    [ceil((2 + q + a) / 450)] documents for [q] and [a] words in the two
    cleaned cells, and a single document exactly when [q + a <= 448]. *)
Theorem combined_text_words (row : Row) :
  let q := split (clean (row_Context row)) in
  let a := split (clean (row_Response row)) in
  split (combined_text row) = "Question:" :: q ++ "Answer:" :: a /\
  length (chunking (combined_text row)) = documents_of_row row /\
  (length (chunking (combined_text row)) = 1%nat
   <-> (length q + length a <= 448)%nat).
Proof.
  cbv zeta. split; [apply split_format_data|].
  rewrite length_chunking, length_split_combined_text.
  split; [done|].
  set (n := (length (split (clean (row_Context row)))
             + length (split (clean (row_Response row))))%nat).
  replace (2 + length (split (clean (row_Context row)))
           + length (split (clean (row_Response row))))%nat
    with (2 + n)%nat by (unfold n; lia).
  clearbody n. split.
  - intros H. destruct (Nat.le_gt_cases (2 + n) 450) as [|Hgt]; [lia|].
    assert (1 < ceil_div (2 + n) 450)%nat by (apply ceil_div_gt; lia). lia.
  - intros H. apply ceil_div_small; lia.
Qed.

(** X10: the number of documents of a data frame is the sum of the
    numbers of documents of its rows. *)
Theorem preprocess_length (df : list Row) :
  length (preprocess df) = sum_list_with documents_of_row df.
Proof.
  induction df as [|row df IH] using rev_ind; [done|].
  rewrite preprocess_snoc, length_process_row, IH.
  rewrite sum_list_with_app. simpl. lia.
Qed.

Lemma renumber_document_of row n count chunk :
  renumber n (document_of row count chunk)
  = document_of row (n + count) chunk.
Proof. reflexivity. Qed.

(** X11: rows added at the end of the data frame leave the documents of
    the rows before them as they are, and give the documents they would
    give alone, with the running counts moved up by the number of
    documents before them. *)
Theorem preprocess_app (df1 df2 : list Row) :
  preprocess (df1 ++ df2)
  = preprocess df1
    ++ (renumber (length (preprocess df1)) <$> preprocess df2).
Proof.
  induction df2 as [|row df2 IH] using rev_ind.
  - by rewrite !app_nil_r.
  - rewrite app_assoc, !preprocess_snoc, !process_row_eq, IH.
    rewrite fmap_app, <- app_assoc. do 2 f_equal.
    rewrite fmap_imap. apply imap_ext. intros k chunk _. simpl.
    rewrite renumber_document_of, length_app, length_fmap. f_equal. lia.
Qed.

(** ** More on [chat_endpoint] *)

Lemma append_source_eq answer sources source :
  append_source {[ "response" := answer; "sources" := PList sources ]} source
  = {[ "response" := answer; "sources" := PList (sources ++ [source]) ]}.
Proof.
  unfold append_source.
  rewrite lookup_insert_ne, lookup_singleton_eq by done.
  rewrite insert_insert_ne by done. by rewrite insert_singleton_eq.
Qed.

Lemma append_sources_eq docs answer sources :
  fold_left (fun result doc => append_source result (make_source doc)) docs
            ({[ "response" := answer; "sources" := PList sources ]}
               : gmap string pyval)
  = {[ "response" := answer;
       "sources" := PList (sources ++ (make_source <$> docs)) ]}.
Proof.
  revert sources. induction docs as [|doc docs IH]; intros sources; simpl.
  - by rewrite app_nil_r.
  - by rewrite append_source_eq, IH, <- app_assoc.
Qed.

Lemma chat_endpoint_list_sources chain question r docs :
  chain_invoke chain (chain_inputs question) = Return r ->
  r !! "source_documents" = Some (PList docs) ->
  chat_endpoint chain question =
    ([Invoke (chain_inputs question)],
     Return {[ "response" := dict_get r "result" (PStr "No response generated");
               "sources" := PList (make_source <$> docs) ]}).
Proof.
  intros Hr Hdocs. unfold chat_endpoint, invoke, bind, try_except.
  fold (chain_inputs question). rewrite Hr, Hdocs. simpl.
  by rewrite append_sources_eq.
Qed.

Lemma make_source_langchain_document c m :
  make_source (langchain_document c m)
  = PDict {[ "content" := c; "metadata" := m ]}.
Proof. reflexivity. Qed.

(** X12: when the chain's result has a list under [source_documents],
    the response is a 200 whose [sources] has one entry per element of
    that list, in the same order, and no error is logged. *)
Theorem list_sources_response (chain : Chain) (question : Question)
    (r : gmap string pyval) (docs : list pyval) :
  chain_invoke chain (chain_inputs question) = Return r ->
  r !! "source_documents" = Some (PList docs) ->
  post_chat chain question =
    ([Invoke (chain_inputs question)],
     {| status := 200;
        body := PDict
          {[ "response" := dict_get r "result" (PStr "No response generated");
             "sources" := PList (make_source <$> docs) ]} |}).
Proof.
  intros Hr Hdocs. unfold post_chat.
  by rewrite (chat_endpoint_list_sources _ _ _ _ Hr Hdocs).
Qed.

(** X13: the documents that the chain retrieved reach the client
    unchanged: for source documents with a [page_content] and a
    [metadata], the entries of [sources] are the pairs
    [{"content": page_content, "metadata": metadata}], and [response] is
    the chain's [result]. *)
Theorem retrieved_documents_response (chain : Chain) (question : Question)
    (r : gmap string pyval) (answer : pyval)
    (retrieved : list (pyval * pyval)) :
  chain_invoke chain (chain_inputs question) = Return r ->
  r !! "result" = Some answer ->
  r !! "source_documents"
    = Some (PList ((fun d => langchain_document d.1 d.2) <$> retrieved)) ->
  (post_chat chain question).2 =
    {| status := 200;
       body := PDict
         {[ "response" := answer;
            "sources" :=
              PList ((fun d => PDict {[ "content" := d.1; "metadata" := d.2 ]})
                       <$> retrieved) ]} |}.
Proof.
  intros Hr Hanswer Hdocs. unfold post_chat.
  rewrite (chat_endpoint_list_sources _ _ _ _ Hr Hdocs). simpl.
  unfold dict_get. rewrite Hanswer. do 4 f_equal.
  rewrite <- list_fmap_compose. done.
Qed.

(** X14: a result whose [source_documents] is [None] makes the request
    fail although the chain has answered: iterating over it raises
    inside the [try], the client gets the generic 500 and the
    [TypeError] is logged. *)
Theorem none_sources_response (chain : Chain) (question : Question)
    (r : gmap string pyval) :
  chain_invoke chain (chain_inputs question) = Return r ->
  r !! "source_documents" = Some PNone ->
  post_chat chain question =
    ([Invoke (chain_inputs question);
      LogError "Error processing question: 'NoneType' object is not iterable"],
     {| status := 500; body := generic_error_body |}).
Proof.
  intros Hr Hdocs. unfold post_chat, chat_endpoint, invoke, bind, try_except.
  fold (chain_inputs question). by rewrite Hr, Hdocs.
Qed.

(** X15: every request calls the chain exactly once, first, with the
    query as it was sent; it answers 200 and logs nothing, or answers
    the generic 500 and logs one error. *)
Theorem request_discipline (chain : Chain) (question : Question) :
  exists rest resp,
    post_chat chain question
      = (Invoke {[ "query" := PStr (query question) ]} :: rest, resp) /\
    ((status resp = 200%nat /\ rest = []) \/
     (status resp = 500%nat /\ body resp = generic_error_body /\
      exists text, rest = [LogError ("Error processing question: " +:+ text)])).
Proof.
  unfold post_chat, chat_endpoint, invoke, bind, try_except.
  destruct (chain_invoke chain _) as [r|e].
  - destruct (r !! "source_documents") as [[|s|n|items|entries|attrs]|];
      simpl; eexists _, _; (split; [reflexivity|]); simpl; eauto 10.
  - simpl. eexists _, _. split; [reflexivity|]. simpl. eauto 10.
Qed.

(** ** [vectorize_documents] and [startup_event] *)

(** X16: [vectorize_documents] returns the store that Chroma built from
    one LangChain document per given document, in the same order, with
    the chunk as [page_content] and the metadata unchanged; when the
    embedding model or Chroma raises, it logs the text and raises the
    same exception again. *)
Theorem vectorize_documents_outcome (env : Environment)
    (documents : list Document) :
  match vectorize_documents env documents with
  | (logs, Return vectorstore) =>
      exists embeddings,
        make_embeddings env = Return embeddings /\
        from_documents env (langchain_documents documents) embeddings
          = Return vectorstore /\
        logs = [Info "Initializing embeddings model...";
                Info "Creating document objects...";
                Info "Creating vector store..."]
  | (logs, Raise e) =>
      (make_embeddings env = Raise e \/
       exists embeddings,
         make_embeddings env = Return embeddings /\
         from_documents env (langchain_documents documents) embeddings
           = Raise e) /\
      last logs = Some (Error ("Error in vectorization: " +:+ str_exn e))
  end.
Proof.
  unfold vectorize_documents, startup_try, startup_bind, call, logger.
  fold (langchain_documents documents).
  destruct (make_embeddings env) as [embeddings|e]; simpl; [|auto].
  destruct (from_documents env (langchain_documents documents) embeddings)
    as [vectorstore|e] eqn:E; simpl; eauto 10.
Qed.

Lemma vectorize_documents_raise env documents logs e :
  vectorize_documents env documents = (logs, Raise e) ->
  make_embeddings env = Raise e \/
  exists embeddings,
    make_embeddings env = Return embeddings /\
    from_documents env (langchain_documents documents) embeddings = Raise e.
Proof.
  unfold vectorize_documents, startup_try, startup_bind, call, logger.
  fold (langchain_documents documents).
  destruct (make_embeddings env) as [embeddings|e']; simpl;
    [|intros [= _ <-]; auto].
  destruct (from_documents env (langchain_documents documents) embeddings)
    as [vectorstore|e'] eqn:E; simpl; [done|].
  intros [= _ <-]. eauto.
Qed.

Lemma vectorize_documents_return env documents logs vectorstore :
  vectorize_documents env documents = (logs, Return vectorstore) ->
  exists embeddings,
    make_embeddings env = Return embeddings /\
    from_documents env (langchain_documents documents) embeddings
      = Return vectorstore.
Proof.
  unfold vectorize_documents, startup_try, startup_bind, call, logger.
  fold (langchain_documents documents).
  destruct (make_embeddings env) as [embeddings|e']; simpl; [|done].
  destruct (from_documents env (langchain_documents documents) embeddings)
    as [vs|e'] eqn:E; simpl; [|done].
  intros [= _ <-]. eauto.
Qed.

(** X17: [startup_event] either succeeds, all four stages having
    succeeded, and leaves in [retrieval_chain] the chain made from the
    store of the preprocessed data; or a stage has failed, and it
    leaves [retrieval_chain] as it was, logs the text of that failure
    and raises the fixed exception [Failed to initialize the system]. *)
Theorem startup_event_outcome (env : Environment)
    (retrieval_chain : option Chain) :
  let '((logs, r), retrieval_chain') := startup_event env retrieval_chain in
  (r = Return tt /\
   last logs = Some (Info "System initialized successfully") /\
   exists df embeddings vectorstore chain,
     read_csv env = Return df /\
     make_embeddings env = Return embeddings /\
     from_documents env (langchain_documents (preprocess df)) embeddings
       = Return vectorstore /\
     create_retrieval_chain env vectorstore = Return chain /\
     retrieval_chain' = Some chain)
  \/
  (r = Raise startup_failure /\
   retrieval_chain' = retrieval_chain /\
   exists e, stage_failure env e /\
             last logs = Some (Error ("Startup error: " +:+ str_exn e))).
Proof.
  unfold startup_event, preprocess_call, stage_failure.
  unfold startup_bind at 1 2. unfold call at 1, startup_ret.
  destruct (read_csv env) as [df|e]; simpl.
  2:{ right. split; [done|]. split; [done|]. exists e. auto. }
  destruct (vectorize_documents env (preprocess df)) as [logs [vs|e]] eqn:Ev.
  - apply vectorize_documents_return in Ev as (emb & Hemb & Hvs).
    unfold startup_bind, call.
    destruct (create_retrieval_chain env vs) as [chain|e] eqn:Ec.
    + left. split; [done|]. split; [by rewrite last_snoc|]. eauto 10.
    + right. split; [done|]. split; [done|]. exists e.
      split; [eauto 10 | by rewrite last_snoc].
  - apply vectorize_documents_raise in Ev. unfold startup_bind.
    right. split; [done|]. split; [done|]. exists e.
    split; [|by rewrite last_snoc].
    right. exists df. split; [done|].
    destruct Ev as [?|(emb & ? & ?)]; eauto 10.
Qed.

(** X18: the startup stops at the first failure.  When the data cannot
    be read, the only record logged is the startup error; when the
    embedding model cannot be made, its text is logged twice, by
    [vectorize_documents] and by [startup_event], and Chroma is not
    reached. *)
Theorem startup_stops_at_failure (env : Environment)
    (retrieval_chain : option Chain) (e : exn) :
  (read_csv env = Raise e ->
   startup_event env retrieval_chain =
     (([Error ("Startup error: " +:+ str_exn e)], Raise startup_failure),
      retrieval_chain)) /\
  (forall df, read_csv env = Return df -> make_embeddings env = Raise e ->
   startup_event env retrieval_chain =
     (([Info "Initializing embeddings model...";
        Error ("Error in vectorization: " +:+ str_exn e);
        Error ("Startup error: " +:+ str_exn e)], Raise startup_failure),
      retrieval_chain)).
Proof.
  split.
  - intros H. unfold startup_event, preprocess_call, startup_bind, call.
    by rewrite H.
  - intros df Hdf He.
    unfold startup_event, preprocess_call, vectorize_documents,
      startup_try, startup_bind, call, logger, startup_ret.
    by rewrite Hdf, He.
Qed.

Lemma startup_stops_at_failure_witness :
  startup_event
    (simple_environment
       (Raise (Exception "FileNotFoundError" "data/data.csv")) (Return tt))
    None
  = (([Error "Startup error: data/data.csv"], Raise startup_failure), None) /\
  startup_event
    (simple_environment (Return [anxious_row])
       (Raise (Exception "OSError" "no model")))
    None
  = (([Info "Initializing embeddings model...";
       Error "Error in vectorization: no model";
       Error "Startup error: no model"], Raise startup_failure), None).
Proof.
  split.
  - apply (startup_stops_at_failure
             (simple_environment
                (Raise (Exception "FileNotFoundError" "data/data.csv"))
                (Return tt))
             None (Exception "FileNotFoundError" "data/data.csv")).
    reflexivity.
  - apply (startup_stops_at_failure
             (simple_environment (Return [anxious_row])
                (Raise (Exception "OSError" "no model")))
             None (Exception "OSError" "no model")) with (df := [anxious_row]);
      reflexivity.
Defined.

(** X19: a request that follows a startup is answered by the chain that
    the startup has made; after a failed startup [retrieval_chain] is
    still not set, and a request handled in that state calls no chain
    and gets the generic 500. *)
Theorem request_after_startup (env : Environment) (question : Question) :
  let '((logs, r), retrieval_chain) := startup_event env None in
  match r with
  | Return _ =>
      exists df embeddings vectorstore chain,
        read_csv env = Return df /\
        make_embeddings env = Return embeddings /\
        from_documents env (langchain_documents (preprocess df)) embeddings
          = Return vectorstore /\
        create_retrieval_chain env vectorstore = Return chain /\
        post_chat_with retrieval_chain question = post_chat chain question
  | Raise _ =>
      post_chat_with retrieval_chain question =
        ([LogError
            "Error processing question: name 'retrieval_chain' is not defined"],
         {| status := 500; body := generic_error_body |})
  end.
Proof.
  unfold startup_event, preprocess_call.
  unfold startup_bind at 1 2. unfold call at 1, startup_ret.
  destruct (read_csv env) as [df|e]; simpl; [|done].
  destruct (vectorize_documents env (preprocess df)) as [logs [vs|e]] eqn:Ev;
    [|done].
  apply vectorize_documents_return in Ev as (emb & Hemb & Hvs).
  unfold startup_bind, call.
  destruct (create_retrieval_chain env vs) as [chain|e] eqn:Ec; [|done].
  exists df, emb, vs, chain. done.
Qed.

Lemma list_sources_response_witness :
  (post_chat
     (answering_chain
        {[ "result" := PStr "Breathe."; "source_documents" := PList [PNone] ]})
     {| query := "I feel anxious" |}).2
  = {| status := 200;
       body := PDict {[ "response" := PStr "Breathe.";
                        "sources" := PList [make_source PNone] ]} |}.
Proof.
  rewrite (list_sources_response _ _
             {[ "result" := PStr "Breathe.";
                "source_documents" := PList [PNone] ]} [PNone]);
    reflexivity.
Defined.

Lemma retrieved_documents_response_witness :
  (post_chat
     (answering_chain
        {[ "result" := PStr "Breathe.";
           "source_documents" :=
             PList [langchain_document (PStr "Question: i feel anxious")
                                       (PDict {[ "response" := PInt 0 ]})] ]})
     {| query := "I feel anxious" |}).2
  = {| status := 200;
       body := PDict
         {[ "response" := PStr "Breathe.";
            "sources" :=
              PList [PDict {[ "content" := PStr "Question: i feel anxious";
                              "metadata" := PDict {[ "response" := PInt 0 ]} ]}]
         ]} |}.
Proof.
  apply (retrieved_documents_response _ _
           {[ "result" := PStr "Breathe.";
              "source_documents" :=
                PList [langchain_document (PStr "Question: i feel anxious")
                         (PDict {[ "response" := PInt 0 ]})] ]}
           (PStr "Breathe.")
           [(PStr "Question: i feel anxious",
             PDict {[ "response" := PInt 0 ]})]);
    reflexivity.
Defined.

Lemma none_sources_response_witness :
  (post_chat
     (answering_chain
        {[ "result" := PStr "Breathe."; "source_documents" := PNone ]})
     {| query := "I feel anxious" |}).2
  = {| status := 500; body := generic_error_body |}.
Proof.
  rewrite (none_sources_response _ _
             {[ "result" := PStr "Breathe."; "source_documents" := PNone ]});
    reflexivity.
Defined.
